(** * The BCCSP-backed membership service provider (msp/mspimpl.go)

    A shallow embedding of [bccspmsp] and of its methods, and the
    properties of the provider that its specification states.

    Conventions of the embedding.
    - A Go [[]byte] is a [list byte]; where the code tests a slice against
      [nil] the slice is an [option bytes] and [None] is the nil slice.
    - A Go [error] is the text of its message: the code only returns an
      error or formats it with [%s].
    - A Go function returning [(T, error)] returns a [result T]; a run-time
      panic (nil dereference, failed type assertion) is the third case.
    - A method with a pointer receiver takes the receiver's address [this]
      and the value it points to, and returns the new value when it
      writes to it.
    - Calls to the logger are left out. *)

From Stdlib Require Import String Ascii List ZArith Lia Bool.
From stdpp Require Import base list strings.
Import ListNotations.

Local Open Scope string_scope.
Local Open Scope list_scope.

(** ** Values of the Go run time *)

Definition bytes := list Byte.byte.
Definition error := string.
Definition Time := Z.
Definition ptr := positive.

Inductive result (A : Type) : Type :=
| Ok (a : A)
| Err (e : error)
| Panic (why : string).
Arguments Ok {A} a.
Arguments Err {A} e.
Arguments Panic {A} why.

Definition nil_dereference : string :=
  "invalid memory address or nil pointer dereference".
Definition interface_conversion : string :=
  "interface conversion: interface is not *msp.identity".
Definition index_out_of_range : string := "index out of range".

Definition is_Ok {A} (r : result A) : bool :=
  match r with Ok _ => true | _ => false end.
Definition is_Err {A} (r : result A) : bool :=
  match r with Err _ => true | _ => false end.
Definition is_Panic {A} (r : result A) : bool :=
  match r with Panic _ => true | _ => false end.

(** ** Types of the packages the provider is built on *)

(** [encoding/pem]: a decoded block. *)
Record pem_Block := { Type_ : string; Bytes : bytes }.

(** The types of [crypto/x509], of the [bccsp] package and of its signer, which
    the provider only passes around. [Raw] is the field of a certificate
    that holds its complete DER encoding. *)
Class CryptoTypes := {
  Certificate : Type;
  Raw : Certificate -> bytes;
  CertPool : Type;
  Key : Type;
  CryptoSigner : Type
}.

Section Types.
Context `{CT : CryptoTypes}.

(** [x509.VerifyOptions]; the provider sets [Roots] and [CurrentTime] and
    leaves the other fields at their zero value. *)
Record VerifyOptions := {
  DNSName : string;
  Intermediates : option CertPool;
  Roots : option CertPool;
  CurrentTime : Time;
  KeyUsages : list nat
}.

(** The first argument of [bccsp.KeyImport] is an [interface{}]: the
    provider passes a certificate or the bytes of a key. *)
Inductive KeyImportRaw :=
| RawCertificate (c : Certificate)
| RawBytes (b : bytes).

Inductive KeyImportOpts :=
| X509PublicKeyImportOpts (Temporary : bool)
| ECDSAPrivateKeyImportOpts (Temporary : bool).

(** The [bccsp.BCCSP] interface, of which the provider calls one method. *)
Record BCCSP := {
  KeyImport : KeyImportRaw -> KeyImportOpts -> Key + error
}.

(** ** The data model of package msp *)

Record IdentityIdentifier := { Mspid : string; Id : string }.

(** Modelled from the spec: the struct [identity] of msp/identities.go is
    not part of the sources; an Identity is an identifier, a parsed
    certificate, a public-key handle and a back-reference to the provider
    that owns it. The code reads its fields [cert] and [pk]. *)
Record identity := {
  ident : IdentityIdentifier;
  cert : Certificate;
  pk : Key;
  owner : ptr
}.

(** Modelled from the spec: the struct [signingidentity] of
    msp/identities.go; an Identity plus a signer bound to the private-key
    handle. *)
Record signingidentity := {
  pub : identity;
  sid_signer : CryptoSigner
}.

(** A value of the interface [Identity]: nil, a [*identity], or a value of
    another implementation, of which nothing is known. *)
Inductive Identity :=
| IdNil
| IdCert (i : identity)
| IdOther (tag : nat).

(** A value of the interface [SigningIdentity]. *)
Inductive SigningIdentity :=
| SidNil
| SidCert (s : signingidentity).

Definition is_cert (id : Identity) : bool :=
  match id with IdCert _ => true | _ => false end.

(** Modelled from the spec: the constructors of msp/identities.go, which
    assemble the value and return it behind the interface. *)
Definition newIdentity (id : IdentityIdentifier) (c : Certificate) (k : Key)
    (msp : ptr) : Identity :=
  IdCert {| ident := id; cert := c; pk := k; owner := msp |}.

Definition newSigningIdentity (id : IdentityIdentifier) (c : Certificate)
    (k : Key) (s : CryptoSigner) (msp : ptr) : SigningIdentity :=
  SidCert {| pub := {| ident := id; cert := c; pk := k; owner := msp |};
             sid_signer := s |}.

(** Modelled from the spec: the configuration types. [SigningIdentity] is a
    pointer in [FabricMSPConfig], tested against nil by [Setup]; the
    entries of [Admins] and [RootCerts] and [PublicSigner] are slices that
    [getIdentityFromConf] tests against nil. *)
Record KeyInfo := { KeyIdentifier : string; KeyMaterial : bytes }.

Record SigningIdentityInfo := {
  PublicSigner : option bytes;
  PrivateSigner : KeyInfo
}.

Record FabricMSPConfig := {
  Name : string;
  Admins : list (option bytes);
  RootCerts : list (option bytes);
  SigningIdentity_ : option SigningIdentityInfo
}.

Record MSPConfig := { Config : bytes }.

(** The wire envelope of an identity. *)
Record SerializedIdentity := { sMspid : string; IdBytes : bytes }.

(** The provider. *)
Record bccspmsp := {
  trustedCerts : list Identity;
  signer : SigningIdentity;
  admins : list Identity;
  bccsp : BCCSP;
  name : string
}.

Definition set_name (m : bccspmsp) (n : string) : bccspmsp :=
  {| trustedCerts := trustedCerts m; signer := signer m; admins := admins m;
     bccsp := bccsp m; name := n |}.
Definition set_admins (m : bccspmsp) (l : list Identity) : bccspmsp :=
  {| trustedCerts := trustedCerts m; signer := signer m; admins := l;
     bccsp := bccsp m; name := name m |}.
Definition set_trustedCerts (m : bccspmsp) (l : list Identity) : bccspmsp :=
  {| trustedCerts := l; signer := signer m; admins := admins m;
     bccsp := bccsp m; name := name m |}.
Definition set_signer (m : bccspmsp) (s : SigningIdentity) : bccspmsp :=
  {| trustedCerts := trustedCerts m; signer := s; admins := admins m;
     bccsp := bccsp m; name := name m |}.

End Types.

(** ** The library functions the provider calls *)

Class Library `{CT : CryptoTypes} := {
  (** [pem.Decode]: the first block found (nil when there is none) and
      the rest of the input. *)
  pem_Decode : bytes -> option pem_Block * bytes;
  (** [pem.EncodeToMemory]. *)
  pem_EncodeToMemory : pem_Block -> option bytes;
  x509_ParseCertificate : bytes -> Certificate + error;
  x509_NewCertPool : CertPool;
  AddCert : CertPool -> Certificate -> CertPool;
  (** [Verify] of an [x509.Certificate]: the chains found, or an error. *)
  Verify : Certificate -> VerifyOptions -> list (list Certificate) + error;
  (** [json.Unmarshal] into a [FabricMSPConfig]. *)
  json_Unmarshal : bytes -> FabricMSPConfig + error;
  (** [asn1.Unmarshal] into a [SerializedIdentity]: the rest of the
      input and the value. *)
  asn1_Unmarshal : bytes -> (bytes * SerializedIdentity) + error;
  asn1_Marshal : SerializedIdentity -> bytes + error;
  (** [Init] of a fresh [signer.CryptoSigner]. *)
  CryptoSigner_Init : BCCSP -> Key -> CryptoSigner + error;
  (** [factory.GetDefault]. *)
  factory_GetDefault : option BCCSP + error
}.

(** ** The methods of [bccspmsp] *)

Section Provider.
Context `{L : Library}.

(** [NewBccspMsp]: a provider with the default BCCSP and every other
    field at its zero value. *)
Definition NewBccspMsp : result bccspmsp :=
  match factory_GetDefault with
  | inr err => Err ("Failed getting default BCCSP [" +:+ err +:+ "]")
  | inl None => Err "Failed getting default BCCSP. Nil instance."
  | inl (Some b) =>
      Ok {| trustedCerts := []; signer := SidNil; admins := [];
            bccsp := b; name := "" |}
  end.

Definition getIdentityFromConf (this : ptr) (msp : bccspmsp)
    (idBytes : option bytes) : result Identity :=
  match idBytes with
  | None => Err "getIdentityFromBytes error: nil idBytes"
  | Some idBytes =>
      (* Decode the pem bytes *)
      match fst (pem_Decode idBytes) with
      | None => Err "getIdentityFromBytes error: could not decode pem bytes"
      | Some pemCert =>
          (* get a cert *)
          match x509_ParseCertificate (Bytes pemCert) with
          | inr err =>
              Err ("getIdentityFromBytes error: failed to parse x509 cert, err "
                   +:+ err)
          | inl cert =>
              (* get the public key in the right format *)
              match KeyImport (bccsp msp) (RawCertificate cert)
                      (X509PublicKeyImportOpts true) with
              | inr err =>
                  Err ("getIdentityFromBytes error: failed to import certitifacate's public key ["
                       +:+ err +:+ "]")
              | inl certPubK =>
                  Ok (newIdentity {| Mspid := name msp; Id := "IDENTITY" |}
                        cert certPubK this)
              end
          end
      end
  end.

Definition getSigningIdentityFromConf (this : ptr) (msp : bccspmsp)
    (sidInfo : option SigningIdentityInfo) : result SigningIdentity :=
  match sidInfo with
  | None => Err "getIdentityFromBytes error: nil sidInfo"
  | Some sidInfo =>
      (* extract the public part of the identity *)
      match getIdentityFromConf this msp (PublicSigner sidInfo) with
      | Err err => Err err
      | Panic why => Panic why
      | Ok idPub =>
          (* Get secret key: [pemKey.Bytes] is read without a nil test *)
          match fst (pem_Decode (KeyMaterial (PrivateSigner sidInfo))) with
          | None => Panic nil_dereference
          | Some pemKey =>
              match KeyImport (bccsp msp) (RawBytes (Bytes pemKey))
                      (ECDSAPrivateKeyImportOpts true) with
              | inr err =>
                  Err ("getIdentityFromBytes error: Failed to import EC private key, err "
                       +:+ err)
              | inl key =>
                  (* get the peer signer *)
                  match CryptoSigner_Init (bccsp msp) key with
                  | inr err =>
                      Err ("getIdentityFromBytes error: Failed initializing CryptoSigner, err "
                           +:+ err)
                  | inl peerSigner =>
                      match idPub with
                      | IdCert i =>
                          Ok (newSigningIdentity
                                {| Mspid := name msp; Id := "DEFAULT" |}
                                (cert i) (pk i) peerSigner this)
                      | _ => Panic interface_conversion
                      end
                  end
              end
          end
      end
  end.

(** [s[i] = id]: Go panics when [i] is out of range. *)
Definition store (s : list Identity) (i : nat) (id : Identity)
    : result (list Identity) :=
  if decide (i < length s) then Ok (<[i:=id]> s) else Panic index_out_of_range.

(** The loop of [Setup] over [conf.Admins], from index [i] on. *)
Fixpoint Setup_admins (this : ptr) (msp : bccspmsp) (i : nat)
    (rest : list (option bytes)) : bccspmsp * result unit :=
  match rest with
  | [] => (msp, Ok tt)
  | admCert :: rest =>
      match getIdentityFromConf this msp admCert with
      | Err err => (msp, Err err)
      | Panic why => (msp, Panic why)
      | Ok id =>
          match store (admins msp) i id with
          | Ok s => Setup_admins this (set_admins msp s) (S i) rest
          | Err err => (msp, Err err)
          | Panic why => (msp, Panic why)
          end
      end
  end.

(** The loop of [Setup] over [conf.RootCerts], from index [i] on. *)
Fixpoint Setup_trustedCerts (this : ptr) (msp : bccspmsp) (i : nat)
    (rest : list (option bytes)) : bccspmsp * result unit :=
  match rest with
  | [] => (msp, Ok tt)
  | trustedCert :: rest =>
      match getIdentityFromConf this msp trustedCert with
      | Err err => (msp, Err err)
      | Panic why => (msp, Panic why)
      | Ok id =>
          match store (trustedCerts msp) i id with
          | Ok s => Setup_trustedCerts this (set_trustedCerts msp s) (S i) rest
          | Err err => (msp, Err err)
          | Panic why => (msp, Panic why)
          end
      end
  end.

(** [make([]Identity, n)]: [n] nil interface values. *)
Definition make_Identity (n : nat) : list Identity := replicate n IdNil.

Definition Setup (this : ptr) (msp : bccspmsp) (conf1 : option MSPConfig)
    : bccspmsp * result unit :=
  match conf1 with
  | None => (msp, Err "Setup error: nil conf reference")
  | Some conf1 =>
      (* given that it's an msp of type fabric, extract the MSPConfig instance *)
      match json_Unmarshal (Config conf1) with
      | inr err =>
          (msp, Err ("Failed unmarshalling fabric msp config, err " +:+ err))
      | inl conf =>
          (* set the name for this msp *)
          let msp := set_name msp (Name conf) in
          (* make and fill the set of admin certs *)
          let msp := set_admins msp (make_Identity (length (Admins conf))) in
          match Setup_admins this msp 0 (Admins conf) with
          | (msp, Err err) => (msp, Err err)
          | (msp, Panic why) => (msp, Panic why)
          | (msp, Ok _) =>
              (* make and fill the set of CA certs *)
              let msp :=
                set_trustedCerts msp (make_Identity (length (RootCerts conf))) in
              match Setup_trustedCerts this msp 0 (RootCerts conf) with
              | (msp, Err err) => (msp, Err err)
              | (msp, Panic why) => (msp, Panic why)
              | (msp, Ok _) =>
                  (* setup the signer (if present) *)
                  match SigningIdentity_ conf with
                  | None => (msp, Ok tt)
                  | Some sidInfo =>
                      match getSigningIdentityFromConf this msp (Some sidInfo) with
                      | Err err => (msp, Err err)
                      | Panic why => (msp, Panic why)
                      | Ok sid => (set_signer msp sid, Ok tt)
                      end
                  end
              end
          end
      end
  end.

(** [Reconfig] is a placeholder. *)
Definition Reconfig (msp : bccspmsp) (config : bytes) : bccspmsp * result unit :=
  (msp, Ok tt).

Definition GetIdentifier (msp : bccspmsp) : result string := Ok (name msp).

Definition GetPolicy (msp : bccspmsp) : string := "".

Definition GetDefaultSigningIdentity (msp : bccspmsp) : result SigningIdentity :=
  match signer msp with
  | SidNil =>
      Err "This MSP does not possess a valid default signing identity"
  | sid => Ok sid
  end.

(** [GetSigningIdentity] returns [nil, nil]. *)
Definition GetSigningIdentity (msp : bccspmsp)
    (identifier : option IdentityIdentifier) : result SigningIdentity :=
  Ok SidNil.

(** The loop of [Validate] that fills the pool of roots: each entry of
    the trust store is asserted to be an [*identity]. *)
Fixpoint Validate_roots (pool : CertPool) (rest : list Identity)
    : result CertPool :=
  match rest with
  | [] => Ok pool
  | IdCert v :: rest => Validate_roots (AddCert pool (cert v)) rest
  | _ :: _ => Panic interface_conversion
  end.

(** [Validate], with the reading of the clock as the input [now]. *)
Definition Validate (msp : bccspmsp) (now : Time) (id : Identity)
    : result unit :=
  match id with
  | IdCert i =>
      match Validate_roots x509_NewCertPool (trustedCerts msp) with
      | Err err => Err err
      | Panic why => Panic why
      | Ok roots =>
          let opts := {| DNSName := ""; Intermediates := None;
                         Roots := Some roots; CurrentTime := now;
                         KeyUsages := [] |} in
          match Verify (cert i) opts with
          | inr err =>
              Err ("The supplied identity is not valid, Verify() returned "
                   +:+ err)
          | inl _ => Ok tt
          end
      end
  | _ => Err "Identity type not recognized"
  end.

Definition DeserializeIdentity (this : ptr) (msp : bccspmsp)
    (serializedID : bytes) : result Identity :=
  (* We first deserialize to a SerializedIdentity to get the MSP ID *)
  match asn1_Unmarshal serializedID with
  | inr err => Err ("Could not deserialize a SerializedIdentity, err " +:+ err)
  | inl (_, sId) =>
      (* This MSP will always deserialize certs this way *)
      match fst (pem_Decode (IdBytes sId)) with
      | None => Err "Could not decode the PEM structure"
      | Some bl =>
          match x509_ParseCertificate (Bytes bl) with
          | inr err => Err ("ParseCertificate failed " +:+ err)
          | inl cert =>
              let id := {| Mspid := name msp; Id := "DEFAULT" |} in
              match KeyImport (bccsp msp) (RawCertificate cert)
                      (X509PublicKeyImportOpts true) with
              | inr err =>
                  Err ("Failed to import certitifacateś public key ["
                       +:+ err +:+ "]")
              | inl pub => Ok (newIdentity id cert pub this)
              end
          end
      end
  end.

(** Modelled from the spec: [Serialize] of an identity, in
    msp/identities.go, is not part of the sources. It produces the tagged
    encoding of the provider identifier and of the PEM armour of the
    certificate. *)
Definition Serialize (i : identity) : result bytes :=
  match pem_EncodeToMemory {| Type_ := ""; Bytes := Raw (cert i) |} with
  | None => Err "Serialize: the PEM encoding failed"
  | Some pemBytes =>
      match asn1_Marshal {| sMspid := Mspid (ident i); IdBytes := pemBytes |} with
      | inr err => Err ("Serialize: the envelope encoding failed, err " +:+ err)
      | inl idBytes => Ok idBytes
      end
  end.

End Provider.

(** ** Notions used in the statements *)

Section Notions.
Context `{L : Library}.
Variable this : ptr.

(** [built m b id]: the factory of provider [m] builds [id] from [b]. *)
Definition built (m : bccspmsp) (b : option bytes) (id : Identity) : Prop :=
  getIdentityFromConf this m b = Ok id.

(** The provider that [Setup] leaves when it stops: the name of the
    configuration, the given lists, the previous signer. *)
Definition stopped (msp : bccspmsp) (conf : FabricMSPConfig)
    (adm roots : list Identity) : bccspmsp :=
  {| trustedCerts := roots; signer := signer msp; admins := adm;
     bccsp := bccsp msp; name := Name conf |}.

(** The certificates held in a list of identities. *)
Fixpoint certificates (l : list Identity) : list Certificate :=
  match l with
  | [] => []
  | IdCert i :: l => cert i :: certificates l
  | _ :: l => certificates l
  end.

(** The options of the path validation against the trust store of [msp]
    at time [now]: the pool of every certificate of the store, in order,
    and the time; no intermediates, no host name, the default usages. *)
Definition path_validation (msp : bccspmsp) (now : Time) : VerifyOptions :=
  {| DNSName := ""; Intermediates := None;
     Roots := Some (fold_left AddCert (certificates (trustedCerts msp))
                      x509_NewCertPool);
     CurrentTime := now; KeyUsages := [] |}.

(** The error of [GetDefaultSigningIdentity]. *)
Definition no_default_signer : error :=
  "This MSP does not possess a valid default signing identity".

(** What the proofs about the codec take from the libraries. *)

(** [asn1.Unmarshal] refuses the empty input: a structure needs a tag. *)
Definition asn1_refuses_empty : Prop :=
  exists e, asn1_Unmarshal [] = inr e.

(** [asn1.Unmarshal] reads back what [asn1.Marshal] wrote. *)
Definition asn1_round_trip : Prop :=
  forall sId data,
    asn1_Marshal sId = inl data ->
    exists rest, asn1_Unmarshal data = inl (rest, sId).

(** [pem.Decode] reads back the bytes that [pem.EncodeToMemory] armoured. *)
Definition pem_round_trip : Prop :=
  forall b data,
    pem_EncodeToMemory b = Some data ->
    exists bl, fst (pem_Decode data) = Some bl /\ Bytes bl = Bytes b.

(** The [Raw] field of a parsed certificate is the DER it was parsed from. *)
Definition Raw_is_DER : Prop :=
  forall der c, x509_ParseCertificate der = inl c -> Raw c = der.

End Notions.

(** ** A small instance of the libraries

    The theorems below hold for every instance of [Library]. To run the
    provider on concrete inputs the libraries are instantiated by a small
    stand-in: a certificate is its DER bytes, which must start with the
    SEQUENCE tag 0x30; the PEM armour is the prefix [PEM:]; the envelope
    is the length of the provider identifier, the identifier and the
    PEM bytes; a certificate verifies when it is in the pool of roots;
    the JSON decoder is a parameter. *)

Module Toy.

Definition B (s : string) : bytes := list_byte_of_string s.

Fixpoint strip_prefix (p l : bytes) : option bytes :=
  match p, l with
  | [], _ => Some l
  | x :: p, y :: l => if Byte.eqb x y then strip_prefix p l else None
  | _ :: _, [] => None
  end.

#[export] Instance types : CryptoTypes := {|
  Certificate := bytes;
  Raw := fun c => c;
  CertPool := list bytes;
  Key := bytes;
  CryptoSigner := bytes
|}.

Definition armour : bytes := B "PEM:".

Definition Decode (data : bytes) : option pem_Block * bytes :=
  match strip_prefix armour data with
  | Some payload => (Some {| Type_ := "CERTIFICATE"; Bytes := payload |}, [])
  | None => (None, data)
  end.

Definition EncodeToMemory (b : pem_Block) : option bytes :=
  Some (armour ++ Bytes b).

Definition ParseCertificate (der : bytes) : bytes + error :=
  match der with
  | Byte.x30 :: _ => inl der
  | _ => inr "asn1: structure error: tags don't match"
  end.

Fixpoint bytes_eqb (a b : bytes) : bool :=
  match a, b with
  | [], [] => true
  | x :: a, y :: b => Byte.eqb x y && bytes_eqb a b
  | _, _ => false
  end.

Definition verify (c : bytes) (opts : VerifyOptions)
    : list (list bytes) + error :=
  match Roots opts with
  | Some pool =>
      if existsb (bytes_eqb c) pool
      then inl [[c; c]]
      else inr "x509: certificate signed by unknown authority"
  | None => inr "x509: certificate signed by unknown authority"
  end.

Definition Unmarshal (data : bytes) : (bytes * SerializedIdentity) + error :=
  match data with
  | [] => inr "asn1: syntax error: sequence truncated"
  | n :: data =>
      if decide (Byte.to_nat n <= length data)
      then inl ([], {| sMspid := string_of_list_byte (take (Byte.to_nat n) data);
                       IdBytes := drop (Byte.to_nat n) data |})
      else inr "asn1: syntax error: data truncated"
  end.

Definition Marshal (sId : SerializedIdentity) : bytes + error :=
  match Byte.of_nat (String.length (sMspid sId)) with
  | Some n => inl (n :: list_byte_of_string (sMspid sId) ++ IdBytes sId)
  | None => inr "asn1: structure error: string too long"
  end.

(** The crypto provider: the public key of a certificate is its bytes; an
    empty private key is refused. *)
Definition csp : BCCSP := {|
  KeyImport := fun raw _ =>
    match raw with
    | RawCertificate c => inl c
    | RawBytes [] => inr "Invalid raw. It must not be nil."
    | RawBytes b => inl b
    end
|}.

Definition lib (json : bytes -> FabricMSPConfig + error) : Library := {|
  pem_Decode := Decode;
  pem_EncodeToMemory := EncodeToMemory;
  x509_ParseCertificate := ParseCertificate;
  x509_NewCertPool := [];
  AddCert := fun pool c => pool ++ [c];
  Verify := verify;
  json_Unmarshal := json;
  asn1_Unmarshal := Unmarshal;
  asn1_Marshal := Marshal;
  CryptoSigner_Init := fun _ key => inl key;
  factory_GetDefault := inl (Some csp)
|}.

(** Three certificates, a key, and bytes that are not PEM. *)
Definition rootPEM : bytes := B "PEM:0root".
Definition adminPEM : bytes := B "PEM:0admin".
Definition leafPEM : bytes := B "PEM:0leaf".
Definition keyPEM : bytes := B "PEM:key".
Definition garbage : bytes := B "garbage".

(** A reading of the clock. *)
Definition noon : Time := 1477828800%Z.

(** A provider as [NewBccspMsp] returns it, and its address. *)
Definition here : ptr := 1%positive.
Definition fresh : bccspmsp :=
  {| trustedCerts := []; signer := SidNil; admins := []; bccsp := csp;
     name := "" |}.

Definition idOf (n : string) (i : string) (c : string) : identity :=
  {| ident := {| Mspid := n; Id := i |}; cert := B c; pk := B c; owner := here |}.

(** The JSON decoder that reads [conf], and a configuration message. *)
Definition reading (conf : FabricMSPConfig) : Library := lib (fun _ => inl conf).
Definition message : MSPConfig := {| Config := B "{}" |}.

Definition keyOf (pem : bytes) : KeyInfo :=
  {| KeyIdentifier := ""; KeyMaterial := pem |}.

(** The scenario of the specification. *)
Definition conf_org1 : FabricMSPConfig :=
  {| Name := "org1"; Admins := [Some adminPEM]; RootCerts := [Some rootPEM];
     SigningIdentity_ :=
       Some {| PublicSigner := Some leafPEM; PrivateSigner := keyOf keyPEM |} |}.

(** The same without a signing identity. *)
Definition conf_no_signer : FabricMSPConfig :=
  {| Name := "org1"; Admins := [Some adminPEM]; RootCerts := [Some rootPEM];
     SigningIdentity_ := None |}.

(** Configurations with one malformed entry. *)
Definition conf_bad_admin : FabricMSPConfig :=
  {| Name := "org1"; Admins := [Some adminPEM; Some garbage];
     RootCerts := [Some rootPEM]; SigningIdentity_ := None |}.

Definition conf_bad_root : FabricMSPConfig :=
  {| Name := "org1"; Admins := [Some adminPEM]; RootCerts := [Some garbage];
     SigningIdentity_ := None |}.

Definition conf_bad_public : FabricMSPConfig :=
  {| Name := "org1"; Admins := [Some adminPEM]; RootCerts := [Some rootPEM];
     SigningIdentity_ :=
       Some {| PublicSigner := Some garbage; PrivateSigner := keyOf keyPEM |} |}.

Definition conf_bad_key : FabricMSPConfig :=
  {| Name := "org1"; Admins := [Some adminPEM]; RootCerts := [Some rootPEM];
     SigningIdentity_ :=
       Some {| PublicSigner := Some leafPEM; PrivateSigner := keyOf garbage |} |}.

Definition not_pem : error :=
  "getIdentityFromBytes error: could not decode pem bytes".

(** The provider after the scenario, and after the configuration with the
    malformed root. *)
Definition configured : bccspmsp :=
  fst (Setup (L := reading conf_org1) here fresh (Some message)).

Definition after_bad_root : bccspmsp :=
  fst (Setup (L := reading conf_bad_root) here fresh (Some message)).

End Toy.

(** ** The identity factory *)

Section Factory.
Context `{L : Library}.
Variable this : ptr.

(** The factory reads the name and the crypto provider of [m] only. *)
Lemma getIdentityFromConf_frame (m m' : bccspmsp) (b : option bytes) :
  name m = name m' -> bccsp m = bccsp m' ->
  getIdentityFromConf this m b = getIdentityFromConf this m' b.
Proof.
  intros Hn Hb. unfold getIdentityFromConf. rewrite Hn, Hb. reflexivity.
Qed.

(** What the factory returns is an [*identity] of this provider, with the
    fixed identifier. *)
Lemma getIdentityFromConf_Ok (m : bccspmsp) (b : option bytes) (id : Identity) :
  getIdentityFromConf this m b = Ok id ->
  exists data bl c k,
    b = Some data /\ fst (pem_Decode data) = Some bl /\
    x509_ParseCertificate (Bytes bl) = inl c /\
    KeyImport (bccsp m) (RawCertificate c) (X509PublicKeyImportOpts true) = inl k /\
    id = IdCert {| ident := {| Mspid := name m; Id := "IDENTITY" |};
                   cert := c; pk := k; owner := this |}.
Proof.
  unfold getIdentityFromConf, newIdentity.
  destruct b as [data|]; [|discriminate].
  destruct (fst (pem_Decode data)) as [bl|] eqn:Hpem; [|discriminate].
  destruct (x509_ParseCertificate (Bytes bl)) as [c|e] eqn:Hc; [|discriminate].
  destruct (KeyImport _ _ _) as [k|e] eqn:Hk; [|discriminate].
  intros [= <-]. exists data, bl, c, k. auto.
Qed.

(** The factory fails with an error: nothing in it can panic. *)
Lemma getIdentityFromConf_no_Panic (m : bccspmsp) (b : option bytes) (why : string) :
  getIdentityFromConf this m b <> Panic why.
Proof.
  unfold getIdentityFromConf.
  destruct b as [data|]; [|discriminate].
  destruct (fst (pem_Decode data)); [|discriminate].
  destruct (x509_ParseCertificate _); [|discriminate].
  destruct (KeyImport _ _ _); discriminate.
Qed.

Lemma getSigningIdentityFromConf_frame (m m' : bccspmsp)
    (s : option SigningIdentityInfo) :
  name m = name m' -> bccsp m = bccsp m' ->
  getSigningIdentityFromConf this m s = getSigningIdentityFromConf this m' s.
Proof.
  intros Hn Hb. unfold getSigningIdentityFromConf.
  destruct s as [s|]; [|reflexivity].
  rewrite (getIdentityFromConf_frame m m' _ Hn Hb), Hn, Hb. reflexivity.
Qed.

End Factory.

(** ** The loops of Setup *)

Section SetupLoops.
Context `{L : Library}.
Variable this : ptr.

Lemma set_admins_frame (m : bccspmsp) (l : list Identity) :
  name (set_admins m l) = name m /\ bccsp (set_admins m l) = bccsp m.
Proof. split; reflexivity. Qed.

Lemma store_next (done : list Identity) (n : nat) (id : Identity) :
  store (done ++ replicate (S n) IdNil) (length done) id
  = Ok ((done ++ [id]) ++ replicate n IdNil).
Proof.
  unfold store. rewrite length_app. simpl.
  destruct (decide _) as [_|Hn]; [|lia].
  f_equal. rewrite <- (Nat.add_0_r (length done)) at 1.
  rewrite insert_app_r. simpl. rewrite <- app_assoc. reflexivity.
Qed.

(** The two loops of [Setup] are the same loop on two fields; their
    proofs share these steps. *)
Ltac fill_base Ha :=
  cbn [app] in *; rewrite app_nil_r, <- Ha;
  match goal with |- context [set_admins ?m _] => destruct m
                | |- context [set_trustedCerts ?m _] => destruct m end;
  reflexivity.

Ltac fill_step this m0 msp b id pre rest done Hb Hn Hc Ha IH :=
  cbn [app Setup_admins Setup_trustedCerts];
  unfold built in Hb;
  rewrite (getIdentityFromConf_frame this msp m0 b Hn Hc), Hb;
  change (length ((b :: pre) ++ rest)) with (S (length (pre ++ rest))) in Ha;
  rewrite Ha, store_next;
  replace (S (length done)) with (length (done ++ [id]))
    by (rewrite length_app; simpl; lia);
  rewrite IH; try assumption; try reflexivity;
  cbn [admins trustedCerts set_admins set_trustedCerts];
  rewrite <- !app_assoc; reflexivity.

(** A run of the admins loop over entries the factory accepts fills
    their slots and goes on with the rest. *)
Lemma Setup_admins_app (m0 : bccspmsp) (pre : list (option bytes))
    (ids : list Identity) :
  Forall2 (built this m0) pre ids ->
  forall (msp : bccspmsp) (done : list Identity) (rest : list (option bytes)),
    name msp = name m0 -> bccsp msp = bccsp m0 ->
    admins msp = done ++ replicate (length (pre ++ rest)) IdNil ->
    Setup_admins this msp (length done) (pre ++ rest)
    = Setup_admins this
        (set_admins msp ((done ++ ids) ++ replicate (length rest) IdNil))
        (length (done ++ ids)) rest.
Proof.
  induction 1 as [|b id pre ids Hb _ IH]; intros msp done rest Hn Hc Ha.
  - fill_base Ha.
  - fill_step this m0 msp b id pre rest done Hb Hn Hc Ha IH.
Qed.

Lemma Setup_trustedCerts_app (m0 : bccspmsp) (pre : list (option bytes))
    (ids : list Identity) :
  Forall2 (built this m0) pre ids ->
  forall (msp : bccspmsp) (done : list Identity) (rest : list (option bytes)),
    name msp = name m0 -> bccsp msp = bccsp m0 ->
    trustedCerts msp = done ++ replicate (length (pre ++ rest)) IdNil ->
    Setup_trustedCerts this msp (length done) (pre ++ rest)
    = Setup_trustedCerts this
        (set_trustedCerts msp ((done ++ ids) ++ replicate (length rest) IdNil))
        (length (done ++ ids)) rest.
Proof.
  induction 1 as [|b id pre ids Hb _ IH]; intros msp done rest Hn Hc Ha.
  - fill_base Ha.
  - fill_step this m0 msp b id pre rest done Hb Hn Hc Ha IH.
Qed.

End SetupLoops.

(** ** Setup *)

Section SetupFacts.
Context `{L : Library}.
Variable this : ptr.

(** A list of configured certificates is built whole, or up to a first
    entry that the factory refuses with an error. *)
Lemma first_refused (m0 : bccspmsp) (l : list (option bytes)) :
  (exists ids, Forall2 (built this m0) l ids) \/
  (exists pre bad post ids e,
     l = pre ++ bad :: post /\ Forall2 (built this m0) pre ids /\
     getIdentityFromConf this m0 bad = Err e).
Proof.
  induction l as [|b l IH].
  - left. exists []. constructor.
  - destruct (getIdentityFromConf this m0 b) as [id|e|why] eqn:Hb.
    + destruct IH as [[ids H]|(pre & bad & post & ids & e & -> & H & He)].
      * left. exists (id :: ids). constructor; assumption.
      * right. exists (b :: pre), bad, post, (id :: ids), e.
        repeat split; try assumption. constructor; assumption.
    + right. exists [], b, l, [], e. repeat split; try assumption. constructor.
    + exfalso. exact (getIdentityFromConf_no_Panic this m0 b why Hb).
Qed.

Lemma built_is_Ok (m0 : bccspmsp) (l : list (option bytes)) (ids : list Identity) :
  Forall2 (built this m0) l ids ->
  Forall (fun b => is_Ok (getIdentityFromConf this m0 b) = true) l.
Proof.
  induction 1 as [|b id l ids Hb _ IH]; constructor; [|assumption].
  unfold built in Hb. rewrite Hb. reflexivity.
Qed.

(** The admins loop of [Setup], started on the empty slots. *)
Lemma Setup_admins_all (msp : bccspmsp) (l : list (option bytes))
    (ids : list Identity) :
  Forall2 (built this msp) l ids ->
  Setup_admins this (set_admins msp (make_Identity (length l))) 0 l
  = (set_admins msp ids, Ok tt).
Proof.
  intros H.
  pose proof (Setup_admins_app this msp l ids H
                (set_admins msp (make_Identity (length l))) [] []) as E.
  rewrite !app_nil_r in E. cbn [length app] in E.
  rewrite E by reflexivity. reflexivity.
Qed.

Lemma Setup_admins_refused (msp : bccspmsp) (pre post : list (option bytes))
    (bad : option bytes) (ids : list Identity) (e : error) :
  Forall2 (built this msp) pre ids ->
  getIdentityFromConf this msp bad = Err e ->
  Setup_admins this
    (set_admins msp (make_Identity (length (pre ++ bad :: post)))) 0
    (pre ++ bad :: post)
  = (set_admins msp (ids ++ replicate (S (length post)) IdNil), Err e).
Proof.
  intros H He.
  pose proof (Setup_admins_app this msp pre ids H
                (set_admins msp (make_Identity (length (pre ++ bad :: post))))
                [] (bad :: post)) as E.
  cbn [length app] in E. rewrite E by reflexivity.
  cbn [Setup_admins].
  rewrite (getIdentityFromConf_frame this _ msp bad) by reflexivity.
  rewrite He. reflexivity.
Qed.

Lemma Setup_trustedCerts_all (msp : bccspmsp) (l : list (option bytes))
    (ids : list Identity) :
  Forall2 (built this msp) l ids ->
  Setup_trustedCerts this (set_trustedCerts msp (make_Identity (length l))) 0 l
  = (set_trustedCerts msp ids, Ok tt).
Proof.
  intros H.
  pose proof (Setup_trustedCerts_app this msp l ids H
                (set_trustedCerts msp (make_Identity (length l))) [] []) as E.
  rewrite !app_nil_r in E. cbn [length app] in E.
  rewrite E by reflexivity. reflexivity.
Qed.

Lemma Setup_trustedCerts_refused (msp : bccspmsp)
    (pre post : list (option bytes)) (bad : option bytes)
    (ids : list Identity) (e : error) :
  Forall2 (built this msp) pre ids ->
  getIdentityFromConf this msp bad = Err e ->
  Setup_trustedCerts this
    (set_trustedCerts msp (make_Identity (length (pre ++ bad :: post)))) 0
    (pre ++ bad :: post)
  = (set_trustedCerts msp (ids ++ replicate (S (length post)) IdNil), Err e).
Proof.
  intros H He.
  pose proof (Setup_trustedCerts_app this msp pre ids H
                (set_trustedCerts msp (make_Identity (length (pre ++ bad :: post))))
                [] (bad :: post)) as E.
  cbn [length app] in E. rewrite E by reflexivity.
  cbn [Setup_trustedCerts].
  rewrite (getIdentityFromConf_frame this _ msp bad) by reflexivity.
  rewrite He. reflexivity.
Qed.

(** [built] is stable under writes to the lists of the provider. *)
Lemma built_frame (m m' : bccspmsp) (l : list (option bytes)) (ids : list Identity) :
  name m = name m' -> bccsp m = bccsp m' ->
  Forall2 (built this m) l ids -> Forall2 (built this m') l ids.
Proof.
  intros Hn Hc H. induction H as [|b id l ids Hb _ IH]; constructor; [|assumption].
  unfold built in *. rewrite <- Hb. symmetry.
  apply getIdentityFromConf_frame; assumption.
Qed.

End SetupFacts.

Section SetupOutcome.
Context `{L : Library}.
Variable this : ptr.

Lemma Setup_refused_admin (msp : bccspmsp) (c : MSPConfig) (conf : FabricMSPConfig)
    (pre post : list (option bytes)) (bad : option bytes)
    (ids : list Identity) (e : error) :
  json_Unmarshal (Config c) = inl conf ->
  Admins conf = pre ++ bad :: post ->
  Forall2 (built this (set_name msp (Name conf))) pre ids ->
  getIdentityFromConf this (set_name msp (Name conf)) bad = Err e ->
  Setup this msp (Some c)
  = (stopped msp conf (ids ++ replicate (S (length post)) IdNil)
       (trustedCerts msp), Err e).
Proof.
  intros Hj Ha Hpre Hbad. unfold Setup. rewrite Hj, Ha.
  rewrite (Setup_admins_refused this _ pre post bad ids e Hpre Hbad).
  reflexivity.
Qed.

Lemma Setup_refused_root (msp : bccspmsp) (c : MSPConfig) (conf : FabricMSPConfig)
    (aids : list Identity) (pre post : list (option bytes)) (bad : option bytes)
    (ids : list Identity) (e : error) :
  json_Unmarshal (Config c) = inl conf ->
  Forall2 (built this (set_name msp (Name conf))) (Admins conf) aids ->
  RootCerts conf = pre ++ bad :: post ->
  Forall2 (built this (set_name msp (Name conf))) pre ids ->
  getIdentityFromConf this (set_name msp (Name conf)) bad = Err e ->
  Setup this msp (Some c)
  = (stopped msp conf aids (ids ++ replicate (S (length post)) IdNil), Err e).
Proof.
  intros Hj Ha Hr Hpre Hbad. unfold Setup. rewrite Hj.
  rewrite (Setup_admins_all this _ _ aids Ha). rewrite Hr.
  erewrite Setup_trustedCerts_refused.
  - reflexivity.
  - eapply built_frame; [| |exact Hpre]; reflexivity.
  - rewrite <- Hbad. apply getIdentityFromConf_frame; reflexivity.
Qed.

(** With both lists built, what is left of [Setup] is the signer. *)
Lemma Setup_lists_built (msp : bccspmsp) (c : MSPConfig) (conf : FabricMSPConfig)
    (aids rids : list Identity) :
  json_Unmarshal (Config c) = inl conf ->
  Forall2 (built this (set_name msp (Name conf))) (Admins conf) aids ->
  Forall2 (built this (set_name msp (Name conf))) (RootCerts conf) rids ->
  Setup this msp (Some c)
  = match SigningIdentity_ conf with
    | None => (stopped msp conf aids rids, Ok tt)
    | Some sidInfo =>
        match getSigningIdentityFromConf this (set_name msp (Name conf))
                (Some sidInfo) with
        | Err err => (stopped msp conf aids rids, Err err)
        | Panic why => (stopped msp conf aids rids, Panic why)
        | Ok sid => (set_signer (stopped msp conf aids rids) sid, Ok tt)
        end
    end.
Proof.
  intros Hj Ha Hr. unfold Setup. rewrite Hj.
  rewrite (Setup_admins_all this _ _ aids Ha).
  erewrite Setup_trustedCerts_all
    by (eapply built_frame; [| |exact Hr]; reflexivity).
  destruct (SigningIdentity_ conf) as [sidInfo|]; [|reflexivity].
  rewrite (getSigningIdentityFromConf_frame this _ (set_name msp (Name conf)))
    by reflexivity.
  destruct (getSigningIdentityFromConf _ _ _); reflexivity.
Qed.

(** A configuration with an entry that the factory refuses stops [Setup]
    with an error. *)
Lemma Setup_refused_entry (msp : bccspmsp) (c : MSPConfig) (conf : FabricMSPConfig) :
  json_Unmarshal (Config c) = inl conf ->
  Exists (fun b => is_Ok (getIdentityFromConf this (set_name msp (Name conf)) b) = false)
    (Admins conf ++ RootCerts conf) ->
  exists msp' e,
    Setup this msp (Some c) = (msp', Err e) /\
    name msp' = Name conf /\ signer msp' = signer msp.
Proof.
  intros Hj H. set (m0 := set_name msp (Name conf)) in *.
  destruct (first_refused this m0 (Admins conf))
    as [[aids Ha]|(pre & bad & post & ids & e & Ha & Hpre & Hbad)].
  - destruct (first_refused this m0 (RootCerts conf))
      as [[rids Hr]|(pre & bad & post & ids & e & Hr & Hpre & Hbad)].
    + exfalso. apply Exists_app in H. apply built_is_Ok in Ha, Hr.
      rewrite Forall_forall in Ha, Hr.
      destruct H as [H|H]; apply Exists_exists in H;
        destruct H as (b & Hin & Hb);
        [ specialize (Ha _ Hin) | specialize (Hr _ Hin) ]; congruence.
    + eexists _, e. split; [|split].
      * exact (Setup_refused_root msp c conf aids pre post bad ids e
                 Hj Ha Hr Hpre Hbad).
      * reflexivity.
      * reflexivity.
  - eexists _, e. split; [|split].
    + exact (Setup_refused_admin msp c conf pre post bad ids e Hj Ha Hpre Hbad).
    + reflexivity.
    + reflexivity.
Qed.

(** C1, as amended. [Setup] fails fast and rolls nothing back. When the
    configuration decodes and the factory refuses an admin or a root
    certificate, [Setup] returns the error of the first refused entry, and
    the provider keeps the name of the configuration and the identities
    built before that entry, the slots from that entry on being left
    nil: for a refused admin the roots are the previous ones, for a refused
    root the admins are all built. When both lists are built and the signing
    identity is refused with an error, both lists are kept whole and the
    signer is the previous one. In particular a configuration with a
    refused admin or root certificate makes [Setup] return an error. *)
Theorem Setup_fails_fast_without_rollback (msp : bccspmsp) (c : MSPConfig)
    (conf : FabricMSPConfig) :
  json_Unmarshal (Config c) = inl conf ->
  let m0 := set_name msp (Name conf) in
  (forall pre bad post ids e,
     Admins conf = pre ++ bad :: post ->
     Forall2 (built this m0) pre ids ->
     getIdentityFromConf this m0 bad = Err e ->
     Setup this msp (Some c)
     = (stopped msp conf (ids ++ replicate (S (length post)) IdNil)
          (trustedCerts msp), Err e)) /\
  (forall aids pre bad post ids e,
     Forall2 (built this m0) (Admins conf) aids ->
     RootCerts conf = pre ++ bad :: post ->
     Forall2 (built this m0) pre ids ->
     getIdentityFromConf this m0 bad = Err e ->
     Setup this msp (Some c)
     = (stopped msp conf aids (ids ++ replicate (S (length post)) IdNil),
        Err e)) /\
  (forall aids rids sidInfo e,
     Forall2 (built this m0) (Admins conf) aids ->
     Forall2 (built this m0) (RootCerts conf) rids ->
     SigningIdentity_ conf = Some sidInfo ->
     getSigningIdentityFromConf this m0 (Some sidInfo) = Err e ->
     Setup this msp (Some c) = (stopped msp conf aids rids, Err e)) /\
  (Exists (fun b => is_Ok (getIdentityFromConf this m0 b) = false)
     (Admins conf ++ RootCerts conf) ->
   is_Err (snd (Setup this msp (Some c))) = true /\
   name (fst (Setup this msp (Some c))) = Name conf /\
   signer (fst (Setup this msp (Some c))) = signer msp).
Proof.
  intros Hj m0. split; [|split; [|split]].
  - intros. eapply Setup_refused_admin; eassumption.
  - intros. eapply Setup_refused_root; eassumption.
  - intros aids rids sidInfo e Ha Hr Hs He.
    rewrite (Setup_lists_built msp c conf aids rids Hj Ha Hr), Hs.
    fold m0. rewrite He. reflexivity.
  - intros H.
    destruct (Setup_refused_entry msp c conf Hj H) as (msp' & e & E & Hn & Hs).
    rewrite E. auto.
Qed.

End SetupOutcome.

(** ** Setup on concrete configurations *)

(** The scenario of the specification: the provider as created, and what
    [Setup] makes of it. *)
Example NewBccspMsp_fresh :
  NewBccspMsp (L := Toy.reading Toy.conf_org1) = Ok Toy.fresh.
Proof. reflexivity. Qed.

Example Setup_org1 :
  Setup (L := Toy.reading Toy.conf_org1) Toy.here Toy.fresh (Some Toy.message)
  = ({| trustedCerts := [IdCert (Toy.idOf "org1" "IDENTITY" "0root")];
        signer := SidCert {| pub := Toy.idOf "org1" "DEFAULT" "0leaf";
                             sid_signer := Toy.B "key" |};
        admins := [IdCert (Toy.idOf "org1" "IDENTITY" "0admin")];
        bccsp := Toy.csp; name := "org1" |}, Ok tt).
Proof. reflexivity. Qed.

(** A private key that is not PEM makes [Setup] panic, with both lists
    built. *)
Example Setup_bad_key :
  Setup (L := Toy.reading Toy.conf_bad_key) Toy.here Toy.fresh (Some Toy.message)
  = ({| trustedCerts := [IdCert (Toy.idOf "org1" "IDENTITY" "0root")];
        signer := SidNil;
        admins := [IdCert (Toy.idOf "org1" "IDENTITY" "0admin")];
        bccsp := Toy.csp; name := "org1" |}, Panic nil_dereference).
Proof. reflexivity. Qed.

Lemma Setup_fails_fast_without_rollback_witness :
  Setup (L := Toy.reading Toy.conf_bad_admin) Toy.here Toy.fresh (Some Toy.message)
  = ({| trustedCerts := []; signer := SidNil;
        admins := [IdCert (Toy.idOf "org1" "IDENTITY" "0admin"); IdNil];
        bccsp := Toy.csp; name := "org1" |}, Err Toy.not_pem)
  /\
  Setup (L := Toy.reading Toy.conf_bad_root) Toy.here Toy.fresh (Some Toy.message)
  = ({| trustedCerts := [IdNil]; signer := SidNil;
        admins := [IdCert (Toy.idOf "org1" "IDENTITY" "0admin")];
        bccsp := Toy.csp; name := "org1" |}, Err Toy.not_pem)
  /\
  Setup (L := Toy.reading Toy.conf_bad_public) Toy.here Toy.fresh (Some Toy.message)
  = ({| trustedCerts := [IdCert (Toy.idOf "org1" "IDENTITY" "0root")];
        signer := SidNil;
        admins := [IdCert (Toy.idOf "org1" "IDENTITY" "0admin")];
        bccsp := Toy.csp; name := "org1" |}, Err Toy.not_pem).
Proof.
  split; [|split].
  - apply (proj1 (Setup_fails_fast_without_rollback
                    (L := Toy.reading Toy.conf_bad_admin) Toy.here Toy.fresh
                    Toy.message Toy.conf_bad_admin eq_refl)
             [Some Toy.adminPEM] (Some Toy.garbage) []
             [IdCert (Toy.idOf "org1" "IDENTITY" "0admin")] Toy.not_pem).
    + reflexivity.
    + repeat constructor.
    + reflexivity.
  - apply (proj1 (proj2 (Setup_fails_fast_without_rollback
                    (L := Toy.reading Toy.conf_bad_root) Toy.here Toy.fresh
                    Toy.message Toy.conf_bad_root eq_refl))
             [IdCert (Toy.idOf "org1" "IDENTITY" "0admin")]
             [] (Some Toy.garbage) [] [] Toy.not_pem).
    + repeat constructor.
    + reflexivity.
    + constructor.
    + reflexivity.
  - apply (proj1 (proj2 (proj2 (Setup_fails_fast_without_rollback
                    (L := Toy.reading Toy.conf_bad_public) Toy.here Toy.fresh
                    Toy.message Toy.conf_bad_public eq_refl)))
             [IdCert (Toy.idOf "org1" "IDENTITY" "0admin")]
             [IdCert (Toy.idOf "org1" "IDENTITY" "0root")]
             {| PublicSigner := Some Toy.garbage;
                PrivateSigner := Toy.keyOf Toy.keyPEM |} Toy.not_pem).
    + repeat constructor.
    + repeat constructor.
    + reflexivity.
    + reflexivity.
Defined.

(** C1, as stated, fails: the second admin certificate of the configuration
    is not PEM; [Setup] returns the error, and the provider is not as it
    was: it has the name of the configuration and it retains the first
    admin. *)
Lemma Setup_not_all_or_nothing :
  let after := Setup (L := Toy.reading Toy.conf_bad_admin) Toy.here Toy.fresh
                 (Some Toy.message) in
  getIdentityFromConf (L := Toy.reading Toy.conf_bad_admin) Toy.here Toy.fresh
    (Some Toy.garbage) = Err Toy.not_pem /\
  snd after = Err Toy.not_pem /\
  name (fst after) = "org1" /\
  admins (fst after) = [IdCert (Toy.idOf "org1" "IDENTITY" "0admin"); IdNil] /\
  fst after <> Toy.fresh.
Proof.
  cbv zeta. repeat split; try reflexivity.
  intros H. apply (f_equal name) in H. vm_compute in H. discriminate H.
Qed.

(** ** What a successful Setup leaves *)

Section SetupSuccess.
Context `{L : Library}.
Variable this : ptr.

Lemma Setup_Ok_inv (msp msp' : bccspmsp) (conf1 : option MSPConfig) :
  Setup this msp conf1 = (msp', Ok tt) ->
  exists c conf aids rids,
    conf1 = Some c /\ json_Unmarshal (Config c) = inl conf /\
    Forall2 (built this (set_name msp (Name conf))) (Admins conf) aids /\
    Forall2 (built this (set_name msp (Name conf))) (RootCerts conf) rids /\
    match SigningIdentity_ conf with
    | None => msp' = stopped msp conf aids rids
    | Some sidInfo =>
        exists sid,
          getSigningIdentityFromConf this (set_name msp (Name conf))
            (Some sidInfo) = Ok sid /\
          msp' = set_signer (stopped msp conf aids rids) sid
    end.
Proof.
  intros H. destruct conf1 as [c|]; [|discriminate H].
  destruct (json_Unmarshal (Config c)) as [conf|e] eqn:Hj;
    [|unfold Setup in H; rewrite Hj in H; discriminate H].
  set (m0 := set_name msp (Name conf)).
  destruct (first_refused this m0 (Admins conf))
    as [[aids Ha]|(pre & bad & post & ids & e & Ha & Hpre & Hbad)];
    [|rewrite (Setup_refused_admin this msp c conf pre post bad ids e
                 Hj Ha Hpre Hbad) in H; discriminate H].
  destruct (first_refused this m0 (RootCerts conf))
    as [[rids Hr]|(pre & bad & post & ids & e & Hr & Hpre & Hbad)];
    [|rewrite (Setup_refused_root this msp c conf aids pre post bad ids e
                 Hj Ha Hr Hpre Hbad) in H; discriminate H].
  exists c, conf, aids, rids. repeat (split; [assumption || reflexivity|]).
  rewrite (Setup_lists_built this msp c conf aids rids Hj Ha Hr) in H.
  destruct (SigningIdentity_ conf) as [sidInfo|].
  - fold m0 in H.
    destruct (getSigningIdentityFromConf this m0 (Some sidInfo))
      as [sid|e|why] eqn:Hs; try discriminate H.
    exists sid. split; [exact Hs|]. congruence.
  - congruence.
Qed.

(** Every identity that the factory built is an [*identity]. *)
Lemma built_is_cert (m0 : bccspmsp) (l : list (option bytes)) (ids : list Identity) :
  Forall2 (built this m0) l ids -> Forall (fun id => is_cert id = true) ids.
Proof.
  induction 1 as [|b id l ids Hb _ IH]; constructor; [|assumption].
  apply getIdentityFromConf_Ok in Hb.
  destruct Hb as (? & ? & ? & ? & _ & _ & _ & _ & ->). reflexivity.
Qed.

(** After a successful [Setup] the trust store and the admins hold
    certificate-backed identities only. *)
Lemma Setup_Ok_stores (msp msp' : bccspmsp) (conf1 : option MSPConfig) :
  Setup this msp conf1 = (msp', Ok tt) ->
  Forall (fun id => is_cert id = true) (trustedCerts msp') /\
  Forall (fun id => is_cert id = true) (admins msp').
Proof.
  intros H. apply Setup_Ok_inv in H.
  destruct H as (c & conf & aids & rids & _ & _ & Ha & Hr & H).
  apply built_is_cert in Ha, Hr.
  destruct (SigningIdentity_ conf).
  - destruct H as (sid & _ & ->). split; assumption.
  - subst msp'. split; assumption.
Qed.

(** So does the provider that [NewBccspMsp] creates. *)
Lemma NewBccspMsp_stores (msp : bccspmsp) :
  NewBccspMsp = Ok msp ->
  trustedCerts msp = [] /\ admins msp = [] /\ signer msp = SidNil.
Proof.
  unfold NewBccspMsp. destruct factory_GetDefault as [[b|]|e]; try discriminate.
  intros [= <-]. auto.
Qed.

End SetupSuccess.

(** ** The signing identity factory *)

Section SigningFactory.
Context `{L : Library}.
Variable this : ptr.

(** C2. The code does not return an error when the private key is not
    PEM: the block that [pem.Decode] returns is nil and reading its
    bytes panics, once the public certificate has been built. *)
Theorem getSigningIdentityFromConf_key_not_pem (msp : bccspmsp)
    (sidInfo : SigningIdentityInfo) (idPub : Identity) :
  getIdentityFromConf this msp (PublicSigner sidInfo) = Ok idPub ->
  fst (pem_Decode (KeyMaterial (PrivateSigner sidInfo))) = None ->
  getSigningIdentityFromConf this msp (Some sidInfo) = Panic nil_dereference.
Proof.
  intros Hpub Hkey. unfold getSigningIdentityFromConf.
  rewrite Hpub, Hkey. reflexivity.
Qed.

(** The identifier of a signing identity is fixed as well. *)
Lemma getSigningIdentityFromConf_Ok (msp : bccspmsp)
    (sidInfo : option SigningIdentityInfo) (sid : SigningIdentity) :
  getSigningIdentityFromConf this msp sidInfo = Ok sid ->
  exists s, sid = SidCert s /\
            ident (pub s) = {| Mspid := name msp; Id := "DEFAULT" |} /\
            owner (pub s) = this.
Proof.
  unfold getSigningIdentityFromConf, newSigningIdentity.
  destruct sidInfo as [sidInfo|]; [|discriminate].
  destruct (getIdentityFromConf _ _ _) as [idPub|e|why]; try discriminate.
  destruct (fst (pem_Decode _)); [|discriminate].
  destruct (KeyImport _ _ _); [|discriminate].
  destruct (CryptoSigner_Init _ _); [|discriminate].
  destruct idPub; try discriminate.
  intros [= <-]. eexists. repeat split.
Qed.

End SigningFactory.

Lemma getSigningIdentityFromConf_key_not_pem_witness :
  getSigningIdentityFromConf (L := Toy.reading Toy.conf_bad_key) Toy.here
    Toy.fresh
    (Some {| PublicSigner := Some Toy.leafPEM;
             PrivateSigner := Toy.keyOf Toy.garbage |})
  = Panic nil_dereference.
Proof.
  apply (getSigningIdentityFromConf_key_not_pem
           (L := Toy.reading Toy.conf_bad_key) Toy.here Toy.fresh
           {| PublicSigner := Some Toy.leafPEM;
              PrivateSigner := Toy.keyOf Toy.garbage |}
           (IdCert (Toy.idOf "" "IDENTITY" "0leaf"))).
  - reflexivity.
  - reflexivity.
Defined.

(** ** The trust validator *)

Section Validator.
Context `{L : Library}.

Lemma Validate_roots_certs (l : list Identity) (pool : CertPool) :
  Forall (fun id => is_cert id = true) l ->
  Validate_roots pool l = Ok (fold_left AddCert (certificates l) pool).
Proof.
  intros H. revert pool.
  induction H as [|id l Hid _ IH]; intros pool; [reflexivity|].
  destruct id; try discriminate Hid. simpl. apply IH.
Qed.

(** An entry of the trust store that is not an [*identity] makes the
    validation of a certificate-backed identity panic. *)
Lemma Validate_roots_Panic (l : list Identity) (pool : CertPool) :
  Exists (fun id => is_cert id = false) l ->
  Validate_roots pool l = Panic interface_conversion.
Proof.
  intros H. revert pool.
  induction H as [id l Hid|id l _ IH]; intros pool.
  - destruct id; try discriminate Hid; reflexivity.
  - destruct id; simpl; try reflexivity. apply IH.
Qed.

Lemma Validate_cert (msp : bccspmsp) (now : Time) (i : identity) :
  Forall (fun id => is_cert id = true) (trustedCerts msp) ->
  Validate msp now (IdCert i)
  = match Verify (cert i) (path_validation msp now) with
    | inl _ => Ok tt
    | inr err =>
        Err ("The supplied identity is not valid, Verify() returned " +:+ err)
    end.
Proof.
  intros H. unfold Validate. rewrite (Validate_roots_certs _ _ H). reflexivity.
Qed.

(** C8. An identity that is not certificate-backed is refused with the
    error of the unsupported type, whatever the provider and its trust
    store hold and whatever the time: the trust store is not read. *)
Theorem Validate_unsupported_type (msp : bccspmsp) (now : Time) (id : Identity) :
  is_cert id = false ->
  Validate msp now id = Err "Identity type not recognized" /\
  forall (msp' : bccspmsp) (now' : Time),
    Validate msp' now' id = Validate msp now id.
Proof.
  intros H. destruct id; try discriminate H; split; reflexivity.
Qed.

(** C10. [GetSigningIdentity] returns neither a signing identity nor an
    error, for every provider and every identifier, nil included; also
    for the identifier of the default signing identity of the provider. *)
Theorem GetSigningIdentity_nil_nil (msp : bccspmsp)
    (identifier : option IdentityIdentifier) :
  GetSigningIdentity msp identifier = Ok SidNil /\
  forall s : signingidentity,
    signer msp = SidCert s ->
    GetDefaultSigningIdentity msp = Ok (SidCert s) /\
    GetSigningIdentity msp (Some (ident (pub s))) = Ok SidNil.
Proof.
  split; [reflexivity|].
  intros s Hs. unfold GetDefaultSigningIdentity. rewrite Hs. split; reflexivity.
Qed.

End Validator.

(** ** The validator on concrete providers *)

(** C3. The code breaks the claim on a provider whose [Setup] stopped at a
    malformed root certificate. [Setup] returned its error and left one
    nil slot in the trust store, which holds no certificate: no
    certificate chains to a root of it, and the claim has [Validate] fail
    with an error. [Validate] of a certificate-backed identity asserts
    that every entry of the trust store is an [*identity] and panics on
    the nil slot: it returns neither nil nor an error. On the provider as
    created, whose trust store is empty, the same identity is refused with
    the error of the path validation. *)
Theorem Validate_panics_on_nil_slot :
  snd (Setup (L := Toy.reading Toy.conf_bad_root) Toy.here Toy.fresh
         (Some Toy.message)) = Err Toy.not_pem /\
  trustedCerts Toy.after_bad_root = [IdNil] /\
  certificates (trustedCerts Toy.after_bad_root) = [] /\
  Validate (L := Toy.reading Toy.conf_bad_root) Toy.after_bad_root Toy.noon
    (IdCert (Toy.idOf "org1" "DEFAULT" "0leaf")) = Panic interface_conversion /\
  Validate (L := Toy.reading Toy.conf_bad_root) Toy.fresh Toy.noon
    (IdCert (Toy.idOf "org1" "DEFAULT" "0leaf"))
  = Err ("The supplied identity is not valid, Verify() returned "
         +:+ "x509: certificate signed by unknown authority").
Proof. repeat split. Qed.

Lemma Validate_unsupported_type_witness :
  Validate (L := Toy.reading Toy.conf_org1) Toy.configured Toy.noon IdNil
  = Err "Identity type not recognized" /\
  Validate (L := Toy.reading Toy.conf_org1) Toy.after_bad_root Toy.noon (IdOther 3)
  = Err "Identity type not recognized".
Proof.
  split.
  - exact (proj1 (Validate_unsupported_type
                    (L := Toy.reading Toy.conf_org1) Toy.configured Toy.noon IdNil
                    eq_refl)).
  - exact (proj1 (Validate_unsupported_type
                    (L := Toy.reading Toy.conf_org1) Toy.after_bad_root Toy.noon
                    (IdOther 3) eq_refl)).
Defined.

Lemma GetSigningIdentity_nil_nil_witness :
  GetDefaultSigningIdentity Toy.configured
  = Ok (SidCert {| pub := Toy.idOf "org1" "DEFAULT" "0leaf";
                   sid_signer := Toy.B "key" |}) /\
  GetSigningIdentity Toy.configured
    (Some {| Mspid := "org1"; Id := "DEFAULT" |}) = Ok SidNil.
Proof.
  exact (proj2 (GetSigningIdentity_nil_nil Toy.configured None)
           {| pub := Toy.idOf "org1" "DEFAULT" "0leaf";
              sid_signer := Toy.B "key" |} eq_refl).
Defined.

(** ** The default signing identity *)

Section DefaultSigner.
Context `{L : Library}.
Variable this : ptr.

(** C7, as amended. Once [Setup] has completed,
    [GetDefaultSigningIdentity] fails, with the error of the missing
    signer, if and only if the configuration had no signing identity and
    the provider held no signer before the call: [Setup] does not clear
    the signer. With a signing identity in the configuration it returns
    the signing identity that [Setup] built from it; without one it
    answers as before the call. *)
Theorem GetDefaultSigningIdentity_after_completed_Setup (msp msp' : bccspmsp)
    (c : MSPConfig) (conf : FabricMSPConfig) :
  json_Unmarshal (Config c) = inl conf ->
  Setup this msp (Some c) = (msp', Ok tt) ->
  (GetDefaultSigningIdentity msp' = Err no_default_signer <->
   SigningIdentity_ conf = None /\ signer msp = SidNil) /\
  (is_Err (GetDefaultSigningIdentity msp') = true ->
   GetDefaultSigningIdentity msp' = Err no_default_signer) /\
  (SigningIdentity_ conf = None ->
   GetDefaultSigningIdentity msp' = GetDefaultSigningIdentity msp) /\
  (forall sidInfo,
     SigningIdentity_ conf = Some sidInfo ->
     exists s,
       getSigningIdentityFromConf this (set_name msp (Name conf)) (Some sidInfo)
       = Ok (SidCert s) /\
       GetDefaultSigningIdentity msp' = Ok (SidCert s)).
Proof.
  intros Hj H. apply Setup_Ok_inv in H.
  destruct H as (c' & conf' & aids & rids & [= <-] & Hj' & _ & _ & H).
  rewrite Hj in Hj'. injection Hj' as <-.
  destruct (SigningIdentity_ conf) as [sidInfo|].
  - destruct H as (sid & Hs & ->).
    destruct (getSigningIdentityFromConf_Ok this _ _ _ Hs) as (s & -> & _).
    split; [|split; [|split]].
    + split; [discriminate|]. intros [Hn _]. discriminate Hn.
    + discriminate.
    + discriminate.
    + intros ? [= <-]. exists s. split; [exact Hs|reflexivity].
  - subst msp'. unfold GetDefaultSigningIdentity. cbn [signer stopped].
    split; [|split; [|split]].
    + destruct (signer msp) as [|s].
      * split; [auto|reflexivity].
      * split; [discriminate|]. intros [_ Hn]. discriminate Hn.
    + destruct (signer msp); [reflexivity|discriminate].
    + reflexivity.
    + discriminate.
Qed.

End DefaultSigner.

Lemma GetDefaultSigningIdentity_after_completed_Setup_witness :
  GetDefaultSigningIdentity Toy.configured
  = Ok (SidCert {| pub := Toy.idOf "org1" "DEFAULT" "0leaf";
                   sid_signer := Toy.B "key" |}) /\
  GetDefaultSigningIdentity
    (fst (Setup (L := Toy.reading Toy.conf_no_signer) Toy.here Toy.fresh
            (Some Toy.message)))
  = Err no_default_signer /\
  GetDefaultSigningIdentity
    (fst (Setup (L := Toy.reading Toy.conf_no_signer) Toy.here Toy.configured
            (Some Toy.message)))
  = GetDefaultSigningIdentity Toy.configured.
Proof.
  split; [|split].
  - destruct (proj2 (proj2 (proj2
                (GetDefaultSigningIdentity_after_completed_Setup
                   (L := Toy.reading Toy.conf_org1) Toy.here
                   Toy.fresh Toy.configured Toy.message Toy.conf_org1
                   eq_refl eq_refl)))
                _ eq_refl) as (s & Hs & E).
    rewrite E. vm_compute in Hs. exact (eq_sym Hs).
  - apply (proj1 (GetDefaultSigningIdentity_after_completed_Setup
                    (L := Toy.reading Toy.conf_no_signer) Toy.here
                    Toy.fresh _ Toy.message Toy.conf_no_signer
                    eq_refl eq_refl)).
    split; reflexivity.
  - apply (proj1 (proj2 (proj2
             (GetDefaultSigningIdentity_after_completed_Setup
                (L := Toy.reading Toy.conf_no_signer) Toy.here
                Toy.configured _ Toy.message Toy.conf_no_signer
                eq_refl eq_refl)))).
    reflexivity.
Defined.

(** C7, as stated, fails on a provider that was set up with a signing
    identity: a second [Setup], on a configuration without a signing
    identity, completes, and [GetDefaultSigningIdentity] does not fail; it
    returns the signing identity of the first. *)
Lemma GetDefaultSigningIdentity_after_second_Setup :
  let second := Setup (L := Toy.reading Toy.conf_no_signer) Toy.here
                  Toy.configured (Some Toy.message) in
  SigningIdentity_ Toy.conf_no_signer = None /\
  snd second = Ok tt /\
  GetDefaultSigningIdentity (fst second)
  = Ok (SidCert {| pub := Toy.idOf "org1" "DEFAULT" "0leaf";
                   sid_signer := Toy.B "key" |}).
Proof. cbv zeta. repeat split. Qed.

(** ** Identifiers *)

Section Identifiers.
Context `{L : Library}.
Variable this : ptr.


End Identifiers.



(** ** The identity codec *)

Section Codec.
Context `{L : Library}.
Variable this : ptr.

(** C5. [DeserializeIdentity] fails on the empty input with the error of
    the envelope, given that the envelope decoder refuses the empty
    input; and it fails with the error of the certificate parser when the
    envelope and the PEM in it decode and the DER does not parse. *)
Theorem DeserializeIdentity_errors (msp : bccspmsp) :
  (asn1_refuses_empty ->
   exists e,
     asn1_Unmarshal [] = inr e /\
     DeserializeIdentity this msp []
     = Err ("Could not deserialize a SerializedIdentity, err " +:+ e)) /\
  (forall data rest sId bl e,
     asn1_Unmarshal data = inl (rest, sId) ->
     fst (pem_Decode (IdBytes sId)) = Some bl ->
     x509_ParseCertificate (Bytes bl) = inr e ->
     DeserializeIdentity this msp data = Err ("ParseCertificate failed " +:+ e)).
Proof.
  split.
  - intros [e He]. exists e. split; [exact He|].
    unfold DeserializeIdentity. rewrite He. reflexivity.
  - intros data rest sId bl e Hu Hp Hx.
    unfold DeserializeIdentity. rewrite Hu, Hp, Hx. reflexivity.
Qed.

(** What [DeserializeIdentity] returns is decided by the bytes of the
    identity in the envelope. *)
Lemma DeserializeIdentity_envelope (msp : bccspmsp) (data rest : bytes)
    (sId : SerializedIdentity) :
  asn1_Unmarshal data = inl (rest, sId) ->
  DeserializeIdentity this msp data
  = match fst (pem_Decode (IdBytes sId)) with
    | None => Err "Could not decode the PEM structure"
    | Some bl =>
        match x509_ParseCertificate (Bytes bl) with
        | inr err => Err ("ParseCertificate failed " +:+ err)
        | inl c =>
            match KeyImport (bccsp msp) (RawCertificate c)
                    (X509PublicKeyImportOpts true) with
            | inr err =>
                Err ("Failed to import certitifacateś public key ["
                     +:+ err +:+ "]")
            | inl k =>
                Ok (IdCert {| ident := {| Mspid := name msp; Id := "DEFAULT" |};
                              cert := c; pk := k; owner := this |})
            end
        end
    end.
Proof.
  intros Hu. unfold DeserializeIdentity. rewrite Hu. reflexivity.
Qed.

(** C9. An envelope that decodes, with a PEM certificate that parses and
    whose public key the crypto provider imports, deserializes to the
    identity of that certificate under the name of the importing
    provider; the provider identifier of the envelope is not read: any
    envelope with the same identity bytes gives the same result. *)
Theorem DeserializeIdentity_ignores_providerId (msp : bccspmsp)
    (data rest : bytes) (sId : SerializedIdentity) (bl : pem_Block)
    (c : Certificate) (k : Key) :
  asn1_Unmarshal data = inl (rest, sId) ->
  fst (pem_Decode (IdBytes sId)) = Some bl ->
  x509_ParseCertificate (Bytes bl) = inl c ->
  KeyImport (bccsp msp) (RawCertificate c) (X509PublicKeyImportOpts true) = inl k ->
  DeserializeIdentity this msp data
  = Ok (IdCert {| ident := {| Mspid := name msp; Id := "DEFAULT" |};
                  cert := c; pk := k; owner := this |}) /\
  forall data' rest' providerId',
    asn1_Unmarshal data'
    = inl (rest', {| sMspid := providerId'; IdBytes := IdBytes sId |}) ->
    DeserializeIdentity this msp data' = DeserializeIdentity this msp data.
Proof.
  intros Hu Hp Hx Hk. split.
  - rewrite (DeserializeIdentity_envelope msp data rest sId Hu), Hp, Hx, Hk.
    reflexivity.
  - intros data' rest' providerId' Hu'.
    rewrite (DeserializeIdentity_envelope msp data rest sId Hu).
    rewrite (DeserializeIdentity_envelope msp data' rest' _ Hu').
    reflexivity.
Qed.

(** C4. The round trip: the identity built from a PEM certificate [C],
    serialized and deserialized by the provider, is an identity whose
    certificate bytes are the DER that [C] armours; it has the
    certificate and the public key of the identity it comes from. *)
Theorem DeserializeIdentity_Serialize (msp : bccspmsp) (C : bytes)
    (i : identity) (data : bytes) :
  pem_round_trip -> asn1_round_trip -> Raw_is_DER ->
  getIdentityFromConf this msp (Some C) = Ok (IdCert i) ->
  Serialize i = Ok data ->
  exists der i',
    option_map Bytes (fst (pem_Decode C)) = Some der /\
    DeserializeIdentity this msp data = Ok (IdCert i') /\
    Raw (cert i') = der /\
    cert i' = cert i /\ pk i' = pk i.
Proof.
  intros Hpem Hasn Hraw Hb Hs.
  apply getIdentityFromConf_Ok in Hb.
  destruct Hb as (C' & bl & c & k & [= <-] & Hbl & Hc & Hk & [= ->]).
  unfold Serialize in Hs. cbn [cert ident] in Hs.
  destruct (pem_EncodeToMemory _) as [pemBytes|] eqn:He; [|discriminate Hs].
  destruct (asn1_Marshal _) as [d|e] eqn:Hm; [|discriminate Hs].
  injection Hs as ->.
  destruct (Hasn _ _ Hm) as (rest & Hu).
  destruct (Hpem _ _ He) as (bl' & Hbl' & Hbytes). cbn [Bytes] in Hbytes.
  pose proof (Hraw _ _ Hc) as Hder.
  exists (Bytes bl), {| ident := {| Mspid := name msp; Id := "DEFAULT" |};
                        cert := c; pk := k; owner := this |}.
  split; [rewrite Hbl; reflexivity|].
  split; [|auto].
  rewrite (DeserializeIdentity_envelope msp data rest _ Hu). cbn [IdBytes].
  rewrite Hbl', Hbytes, Hder, Hc, Hk. reflexivity.
Qed.

End Codec.

(** ** The codec on concrete envelopes *)

Section ToyLaws.
Variable conf : FabricMSPConfig.

Lemma Toy_strip_prefix_app (p l : bytes) : Toy.strip_prefix p (p ++ l) = Some l.
Proof.
  induction p as [|x p IH]; [reflexivity|].
  simpl. rewrite (Byte.byte_dec_lb eq_refl). exact IH.
Qed.

Lemma length_list_byte_of_string (s : string) :
  length (list_byte_of_string s) = String.length s.
Proof.
  unfold list_byte_of_string. rewrite length_map.
  induction s as [|a s IH]; simpl; congruence.
Qed.

Lemma Toy_asn1_refuses_empty : asn1_refuses_empty (L := Toy.reading conf).
Proof. eexists. reflexivity. Qed.

Lemma Toy_pem_round_trip : pem_round_trip (L := Toy.reading conf).
Proof.
  intros b data H. injection H as <-.
  exists {| Type_ := "CERTIFICATE"; Bytes := Bytes b |}.
  change (fst (Toy.Decode (Toy.armour ++ Bytes b))
          = Some {| Type_ := "CERTIFICATE"; Bytes := Bytes b |} /\ Bytes b = Bytes b).
  unfold Toy.Decode.
  rewrite (Toy_strip_prefix_app Toy.armour (Bytes b)). split; reflexivity.
Qed.

Lemma Toy_asn1_round_trip : asn1_round_trip (L := Toy.reading conf).
Proof.
  intros [providerId idBytes] data.
  cbn [asn1_Marshal asn1_Unmarshal Toy.reading Toy.lib].
  unfold Toy.Marshal. cbn [sMspid IdBytes].
  destruct (Byte.of_nat (String.length providerId)) as [n|] eqn:Hn; [|discriminate].
  intros [= <-]. apply Byte.to_of_nat in Hn.
  exists []. unfold Toy.Unmarshal. rewrite Hn.
  destruct (decide _) as [_|Hle].
  - rewrite take_app_length', drop_app_length'
      by (symmetry; apply length_list_byte_of_string).
    rewrite string_of_list_byte_of_string. reflexivity.
  - exfalso. apply Hle. rewrite length_app, length_list_byte_of_string. lia.
Qed.

Lemma Toy_Raw_is_DER : Raw_is_DER (L := Toy.reading conf).
Proof.
  intros der c. cbn [x509_ParseCertificate Toy.reading Toy.lib].
  unfold Toy.ParseCertificate.
  destruct der as [|[] der]; try discriminate. intros [= <-]. reflexivity.
Qed.

End ToyLaws.

Lemma DeserializeIdentity_errors_witness :
  (exists e,
     asn1_Unmarshal (Library := Toy.reading Toy.conf_org1) [] = inr e /\
     DeserializeIdentity (L := Toy.reading Toy.conf_org1) Toy.here Toy.configured []
     = Err ("Could not deserialize a SerializedIdentity, err " +:+ e)) /\
  DeserializeIdentity (L := Toy.reading Toy.conf_org1) Toy.here Toy.configured
    (Toy.B (String "004" "org1PEM:not a certificate"))
  = Err "ParseCertificate failed asn1: structure error: tags don't match".
Proof.
  split.
  - apply (proj1 (DeserializeIdentity_errors (L := Toy.reading Toy.conf_org1)
                    Toy.here Toy.configured)).
    apply Toy_asn1_refuses_empty.
  - apply (proj2 (DeserializeIdentity_errors (L := Toy.reading Toy.conf_org1)
                    Toy.here Toy.configured)
             (Toy.B (String "004" "org1PEM:not a certificate")) []
             {| sMspid := "org1"; IdBytes := Toy.B "PEM:not a certificate" |}
             {| Type_ := "CERTIFICATE"; Bytes := Toy.B "not a certificate" |}
             "asn1: structure error: tags don't match");
      reflexivity.
Defined.

Lemma DeserializeIdentity_ignores_providerId_witness :
  DeserializeIdentity (L := Toy.reading Toy.conf_org1) Toy.here Toy.configured
    (Toy.B (String "004" "org1PEM:0leaf"))
  = Ok (IdCert (Toy.idOf "org1" "DEFAULT" "0leaf")) /\
  DeserializeIdentity (L := Toy.reading Toy.conf_org1) Toy.here Toy.configured
    (Toy.B (String "005" "otherPEM:0leaf"))
  = DeserializeIdentity (L := Toy.reading Toy.conf_org1) Toy.here Toy.configured
      (Toy.B (String "004" "org1PEM:0leaf")).
Proof.
  pose proof (DeserializeIdentity_ignores_providerId
                (L := Toy.reading Toy.conf_org1) Toy.here Toy.configured
                (Toy.B (String "004" "org1PEM:0leaf")) []
                {| sMspid := "org1"; IdBytes := Toy.leafPEM |}
                {| Type_ := "CERTIFICATE"; Bytes := Toy.B "0leaf" |}
                (Toy.B "0leaf") (Toy.B "0leaf")
                eq_refl eq_refl eq_refl eq_refl) as [H1 H2].
  split.
  - exact H1.
  - exact (H2 (Toy.B (String "005" "otherPEM:0leaf")) [] "other" eq_refl).
Defined.

Lemma DeserializeIdentity_Serialize_witness :
  Serialize (L := Toy.reading Toy.conf_org1) (Toy.idOf "org1" "IDENTITY" "0leaf")
  = Ok (Toy.B (String "004" "org1PEM:0leaf")) /\
  exists der i',
    option_map Bytes (fst (pem_Decode (Library := Toy.reading Toy.conf_org1) Toy.leafPEM))
    = Some der /\
    DeserializeIdentity (L := Toy.reading Toy.conf_org1) Toy.here Toy.configured
      (Toy.B (String "004" "org1PEM:0leaf")) = Ok (IdCert i') /\
    Raw (cert i') = der /\
    cert i' = Toy.B "0leaf" /\ pk i' = Toy.B "0leaf".
Proof.
  split; [reflexivity|].
  apply (DeserializeIdentity_Serialize (L := Toy.reading Toy.conf_org1)
           Toy.here Toy.configured Toy.leafPEM
           (Toy.idOf "org1" "IDENTITY" "0leaf")
           (Toy.B (String "004" "org1PEM:0leaf"))
           (Toy_pem_round_trip _) (Toy_asn1_round_trip _) (Toy_Raw_is_DER _)).
  - reflexivity.
  - reflexivity.
Defined.

(** * Further properties of the provider *)

(** ** The three ways through Setup *)

Section SetupCases.
Context `{L : Library}.
Variable this : ptr.

(** Once the configuration decodes, [Setup] stops at a refused admin, or
    at a refused root, or builds both lists and turns to the signer. *)
Lemma Setup_cases (msp : bccspmsp) (c : MSPConfig) (conf : FabricMSPConfig) :
  json_Unmarshal (Config c) = inl conf ->
  (exists pre bad post ids e,
     Admins conf = pre ++ bad :: post /\
     Forall2 (built this (set_name msp (Name conf))) pre ids /\
     getIdentityFromConf this (set_name msp (Name conf)) bad = Err e /\
     Setup this msp (Some c)
     = (stopped msp conf (ids ++ replicate (S (length post)) IdNil)
          (trustedCerts msp), Err e)) \/
  (exists aids pre bad post ids e,
     Forall2 (built this (set_name msp (Name conf))) (Admins conf) aids /\
     RootCerts conf = pre ++ bad :: post /\
     Forall2 (built this (set_name msp (Name conf))) pre ids /\
     getIdentityFromConf this (set_name msp (Name conf)) bad = Err e /\
     Setup this msp (Some c)
     = (stopped msp conf aids (ids ++ replicate (S (length post)) IdNil),
        Err e)) \/
  (exists aids rids,
     Forall2 (built this (set_name msp (Name conf))) (Admins conf) aids /\
     Forall2 (built this (set_name msp (Name conf))) (RootCerts conf) rids /\
     Setup this msp (Some c)
     = match SigningIdentity_ conf with
       | None => (stopped msp conf aids rids, Ok tt)
       | Some sidInfo =>
           match getSigningIdentityFromConf this (set_name msp (Name conf))
                   (Some sidInfo) with
           | Err err => (stopped msp conf aids rids, Err err)
           | Panic why => (stopped msp conf aids rids, Panic why)
           | Ok sid => (set_signer (stopped msp conf aids rids) sid, Ok tt)
           end
       end).
Proof.
  intros Hj. set (m0 := set_name msp (Name conf)).
  destruct (first_refused this m0 (Admins conf))
    as [[aids Ha]|(pre & bad & post & ids & e & Ha & Hpre & Hbad)].
  - destruct (first_refused this m0 (RootCerts conf))
      as [[rids Hr]|(pre & bad & post & ids & e & Hr & Hpre & Hbad)].
    + right; right. exists aids, rids. repeat (split; [assumption|]).
      exact (Setup_lists_built this msp c conf aids rids Hj Ha Hr).
    + right; left. exists aids, pre, bad, post, ids, e.
      repeat (split; [assumption|]).
      exact (Setup_refused_root this msp c conf aids pre post bad ids e
               Hj Ha Hr Hpre Hbad).
  - left. exists pre, bad, post, ids, e. repeat (split; [assumption|]).
    exact (Setup_refused_admin this msp c conf pre post bad ids e
             Hj Ha Hpre Hbad).
Qed.

(** The signing factory does not panic on the type assertion: what the
    identity factory returns is an [*identity]. *)
Lemma getSigningIdentityFromConf_Panic_inv (msp : bccspmsp)
    (s : option SigningIdentityInfo) (why : string) :
  getSigningIdentityFromConf this msp s = Panic why ->
  exists sidInfo idPub,
    s = Some sidInfo /\
    getIdentityFromConf this msp (PublicSigner sidInfo) = Ok idPub /\
    fst (pem_Decode (KeyMaterial (PrivateSigner sidInfo))) = None /\
    why = nil_dereference.
Proof.
  unfold getSigningIdentityFromConf.
  destruct s as [sidInfo|]; [|discriminate].
  destruct (getIdentityFromConf this msp (PublicSigner sidInfo))
    as [idPub|e|w] eqn:Hpub; [|discriminate|].
  - destruct (fst (pem_Decode _)) eqn:Hkey.
    + destruct (KeyImport _ _ _); [|discriminate].
      destruct (CryptoSigner_Init _ _); [|discriminate].
      apply getIdentityFromConf_Ok in Hpub.
      destruct Hpub as (? & ? & ? & ? & _ & _ & _ & _ & ->). discriminate.
    + intros [= <-]. exists sidInfo, idPub. auto.
  - exfalso. exact (getIdentityFromConf_no_Panic this msp _ w Hpub).
Qed.

End SetupCases.

(** ** When Setup and the signing factory panic *)

Section Panics.
Context `{L : Library}.
Variable this : ptr.

(** The signing factory panics in one case only: the public certificate
    has been built and the key material holds no PEM block. No type
    assertion of it fails, and a refused public certificate is reported
    before the key is looked at. *)
Theorem getSigningIdentityFromConf_Panic_iff (msp : bccspmsp)
    (s : option SigningIdentityInfo) (why : string) :
  getSigningIdentityFromConf this msp s = Panic why <->
  exists sidInfo idPub,
    s = Some sidInfo /\
    getIdentityFromConf this msp (PublicSigner sidInfo) = Ok idPub /\
    fst (pem_Decode (KeyMaterial (PrivateSigner sidInfo))) = None /\
    why = nil_dereference.
Proof.
  split.
  - apply getSigningIdentityFromConf_Panic_inv.
  - intros (sidInfo & idPub & -> & Hpub & Hkey & ->).
    unfold getSigningIdentityFromConf. rewrite Hpub, Hkey. reflexivity.
Qed.

(** [Setup] panics in one case only: the configuration decodes, every
    admin and every root is built, and the signing identity has a public
    certificate that is built and key material with no PEM block. The
    writes to the slots of the two lists are always in range. *)
Theorem Setup_Panic_iff (msp : bccspmsp) (conf1 : option MSPConfig)
    (why : string) :
  snd (Setup this msp conf1) = Panic why <->
  exists c conf aids rids sidInfo idPub,
    conf1 = Some c /\ json_Unmarshal (Config c) = inl conf /\
    Forall2 (built this (set_name msp (Name conf))) (Admins conf) aids /\
    Forall2 (built this (set_name msp (Name conf))) (RootCerts conf) rids /\
    SigningIdentity_ conf = Some sidInfo /\
    getIdentityFromConf this (set_name msp (Name conf)) (PublicSigner sidInfo)
    = Ok idPub /\
    fst (pem_Decode (KeyMaterial (PrivateSigner sidInfo))) = None /\
    why = nil_dereference.
Proof.
  split.
  - destruct conf1 as [c|]; [|discriminate].
    destruct (json_Unmarshal (Config c)) as [conf|e] eqn:Hj;
      [|unfold Setup; rewrite Hj; discriminate].
    destruct (Setup_cases this msp c conf Hj)
      as [(pre & bad & post & ids & e & _ & _ & _ & ->)
         |[(aids & pre & bad & post & ids & e & _ & _ & _ & _ & ->)
          |(aids & rids & Ha & Hr & ->)]]; try discriminate.
    destruct (SigningIdentity_ conf) as [sidInfo|] eqn:Hs; [|discriminate].
    destruct (getSigningIdentityFromConf _ _ _) as [sid|e|w] eqn:Hsid;
      try discriminate.
    intros [= <-]. apply getSigningIdentityFromConf_Panic_inv in Hsid.
    destruct Hsid as (sidInfo' & idPub & [= <-] & Hpub & Hkey & ->).
    exists c, conf, aids, rids, sidInfo, idPub. auto 10.
  - intros (c & conf & aids & rids & sidInfo & idPub
            & -> & Hj & Ha & Hr & Hs & Hpub & Hkey & ->).
    rewrite (Setup_lists_built this msp c conf aids rids Hj Ha Hr), Hs.
    unfold getSigningIdentityFromConf. rewrite Hpub, Hkey. reflexivity.
Qed.

End Panics.

Lemma getSigningIdentityFromConf_Panic_iff_witness :
  getSigningIdentityFromConf (L := Toy.reading Toy.conf_bad_key) Toy.here
    Toy.fresh
    (Some {| PublicSigner := Some Toy.rootPEM;
             PrivateSigner := Toy.keyOf (Toy.B "0root") |})
  = Panic nil_dereference.
Proof.
  apply (proj2 (getSigningIdentityFromConf_Panic_iff
                  (L := Toy.reading Toy.conf_bad_key) Toy.here Toy.fresh _ _)).
  eexists _, (IdCert (Toy.idOf "" "IDENTITY" "0root")).
  repeat split.
Defined.

Lemma Setup_Panic_iff_witness :
  snd (Setup (L := Toy.reading Toy.conf_bad_key) Toy.here Toy.fresh
         (Some Toy.message)) = Panic nil_dereference.
Proof.
  apply (proj2 (Setup_Panic_iff (L := Toy.reading Toy.conf_bad_key)
                  Toy.here Toy.fresh (Some Toy.message) nil_dereference)).
  exists Toy.message, Toy.conf_bad_key,
    [IdCert (Toy.idOf "org1" "IDENTITY" "0admin")],
    [IdCert (Toy.idOf "org1" "IDENTITY" "0root")],
    {| PublicSigner := Some Toy.leafPEM;
       PrivateSigner := Toy.keyOf Toy.garbage |},
    (IdCert (Toy.idOf "org1" "IDENTITY" "0leaf")).
  repeat split; repeat constructor.
Defined.

(** ** What Setup keeps and what it overwrites *)

Section SetupState.
Context `{L : Library}.
Variable this : ptr.

(** A [Setup] that does not succeed leaves the signer as it was, and so
    the answer of [GetDefaultSigningIdentity]; no [Setup] changes the
    crypto provider. *)
Theorem Setup_keeps_signer (msp : bccspmsp) (conf1 : option MSPConfig) :
  bccsp (fst (Setup this msp conf1)) = bccsp msp /\
  (is_Ok (snd (Setup this msp conf1)) = false ->
   signer (fst (Setup this msp conf1)) = signer msp /\
   GetDefaultSigningIdentity (fst (Setup this msp conf1))
   = GetDefaultSigningIdentity msp).
Proof.
  destruct conf1 as [c|]; [|split; [reflexivity|intros _; split; reflexivity]].
  destruct (json_Unmarshal (Config c)) as [conf|e] eqn:Hj;
    [|unfold Setup; rewrite Hj; split; [reflexivity|intros _; split; reflexivity]].
  destruct (Setup_cases this msp c conf Hj)
    as [(pre & bad & post & ids & e & _ & _ & _ & ->)
       |[(aids & pre & bad & post & ids & e & _ & _ & _ & _ & ->)
        |(aids & rids & Ha & Hr & ->)]];
    try (split; [reflexivity|intros _; split; reflexivity]).
  destruct (SigningIdentity_ conf) as [sidInfo|];
    [|split; [reflexivity|discriminate]].
  destruct (getSigningIdentityFromConf _ _ _);
    (split; [reflexivity|]); try discriminate; intros _; split; reflexivity.
Qed.

(** A [Setup] that succeeds on a configuration without a signing identity
    keeps the signer that the provider held: a provider that was set up
    with a signing identity still returns it after a second [Setup]
    without one. *)
Theorem Setup_without_signer_keeps_default (msp msp' : bccspmsp)
    (c : MSPConfig) (conf : FabricMSPConfig) :
  json_Unmarshal (Config c) = inl conf ->
  SigningIdentity_ conf = None ->
  Setup this msp (Some c) = (msp', Ok tt) ->
  GetDefaultSigningIdentity msp' = GetDefaultSigningIdentity msp.
Proof.
  intros Hj Hs H. apply Setup_Ok_inv in H.
  destruct H as (c' & conf' & aids & rids & [= <-] & Hj' & _ & _ & H).
  rewrite Hj in Hj'. injection Hj' as <-. rewrite Hs in H. subst msp'.
  reflexivity.
Qed.

(** When the configuration decodes, the provider takes its name and gets
    one admin slot for each configured admin, whatever the outcome of
    [Setup]; when it is nil or does not decode, the provider is left
    untouched and an error is returned. *)
Theorem Setup_name_and_slots (msp : bccspmsp) (conf1 : option MSPConfig) :
  (forall c conf,
     conf1 = Some c -> json_Unmarshal (Config c) = inl conf ->
     GetIdentifier (fst (Setup this msp conf1)) = Ok (Name conf) /\
     length (admins (fst (Setup this msp conf1))) = length (Admins conf)) /\
  ((conf1 = None \/
    exists c e, conf1 = Some c /\ json_Unmarshal (Config c) = inr e) ->
   fst (Setup this msp conf1) = msp /\
   is_Err (snd (Setup this msp conf1)) = true).
Proof.
  split.
  - intros c conf -> Hj. unfold GetIdentifier.
    destruct (Setup_cases this msp c conf Hj)
      as [(pre & bad & post & ids & e & Ha & Hpre & _ & ->)
         |[(aids & pre & bad & post & ids & e & Ha & _ & _ & _ & ->)
          |(aids & rids & Ha & Hr & ->)]].
    + split; [reflexivity|]. cbn [fst admins stopped].
      rewrite Ha, !length_app, (Forall2_length _ _ _ Hpre), length_replicate.
      reflexivity.
    + split; [reflexivity|]. cbn [fst admins stopped].
      symmetry. exact (Forall2_length _ _ _ Ha).
    + apply Forall2_length in Ha.
      destruct (SigningIdentity_ conf); [|split; [reflexivity|auto]].
      destruct (getSigningIdentityFromConf _ _ _);
        (split; [reflexivity|auto]).
  - intros [->|(c & e & -> & Hj)]; [split; reflexivity|].
    unfold Setup. rewrite Hj. split; reflexivity.
Qed.

(** [with_owner p id]: the identity [id] with the provider at [p] as its
    owner. *)
Definition with_owner (p : ptr) (id : Identity) : Identity :=
  match id with
  | IdCert i =>
      IdCert {| ident := ident i; cert := cert i; pk := pk i; owner := p |}
  | _ => id
  end.

(** The address of the provider is used for the owner of the identity
    and for nothing else. *)
Lemma getIdentityFromConf_owner (this1 this2 : ptr) (m m' : bccspmsp)
    (b : option bytes) :
  name m = name m' -> bccsp m = bccsp m' ->
  getIdentityFromConf this2 m' b
  = match getIdentityFromConf this1 m b with
    | Ok id => Ok (with_owner this2 id)
    | Err e => Err e
    | Panic why => Panic why
    end.
Proof.
  intros Hn Hb. unfold getIdentityFromConf, newIdentity. rewrite Hn, Hb.
  destruct b as [data|]; [|reflexivity].
  destruct (fst (pem_Decode data)); [|reflexivity].
  destruct (x509_ParseCertificate _); [|reflexivity].
  destruct (KeyImport _ _ _); reflexivity.
Qed.

Lemma built_owner (this1 this2 : ptr) (m m' : bccspmsp)
    (l : list (option bytes)) (ids : list Identity) :
  name m = name m' -> bccsp m = bccsp m' ->
  Forall2 (built this1 m) l ids ->
  Forall2 (built this2 m') l (map (with_owner this2) ids).
Proof.
  intros Hn Hb H. induction H as [|b id l ids Hid _ IH]; [constructor|].
  cbn [map]. constructor; [|exact IH].
  unfold built in *.
  rewrite (getIdentityFromConf_owner this1 this2 m m' b Hn Hb), Hid.
  reflexivity.
Qed.

Lemma built_own (p : ptr) (m : bccspmsp) (l : list (option bytes))
    (ids : list Identity) :
  Forall2 (built p m) l ids -> map (with_owner p) ids = ids.
Proof.
  induction 1 as [|b id l ids Hid _ IH]; [reflexivity|].
  cbn [map]. rewrite IH. f_equal.
  apply getIdentityFromConf_Ok in Hid.
  destruct Hid as (? & ? & ? & ? & _ & _ & _ & _ & ->). reflexivity.
Qed.

Lemma getSigningIdentityFromConf_owner (this1 this2 : ptr) (m m' : bccspmsp)
    (s : option SigningIdentityInfo) :
  name m = name m' -> bccsp m = bccsp m' ->
  is_Ok (getSigningIdentityFromConf this2 m' s)
  = is_Ok (getSigningIdentityFromConf this1 m s) /\
  forall r : result unit,
    (match getSigningIdentityFromConf this1 m s with
     | Ok _ => Ok tt | Err e => Err e | Panic why => Panic why end) = r ->
    (match getSigningIdentityFromConf this2 m' s with
     | Ok _ => Ok tt | Err e => Err e | Panic why => Panic why end) = r.
Proof.
  intros Hn Hb. unfold getSigningIdentityFromConf.
  destruct s as [s|]; [|split; [reflexivity|auto]].
  rewrite (getIdentityFromConf_owner this1 this2 m m' _ Hn Hb), Hn, Hb.
  destruct (getIdentityFromConf this1 m (PublicSigner s)) as [idPub|e|why];
    [|split; [reflexivity|auto]|split; [reflexivity|auto]].
  destruct (fst (pem_Decode _)); [|split; [reflexivity|auto]].
  destruct (KeyImport _ _ _); [|split; [reflexivity|auto]].
  destruct (CryptoSigner_Init _ _); [|split; [reflexivity|auto]].
  destruct idPub; split; (reflexivity || auto).
Qed.

(** The outcome of [Setup] does not depend on what the provider held,
    nor on which provider it is: two providers with the same crypto
    provider, at any two addresses, get the same result from the same
    configuration, and when [Setup] succeeds the same name and, entry by
    entry, the same admins and trusted roots, each owned by its own
    provider. On one provider a second attempt behaves as the first: the
    admins and the trusted roots are equal. *)
Theorem Setup_overwrites (this1 this2 : ptr) (msp1 msp2 : bccspmsp)
    (conf1 : option MSPConfig) :
  bccsp msp1 = bccsp msp2 ->
  snd (Setup this1 msp1 conf1) = snd (Setup this2 msp2 conf1) /\
  (is_Ok (snd (Setup this1 msp1 conf1)) = true ->
   name (fst (Setup this2 msp2 conf1)) = name (fst (Setup this1 msp1 conf1)) /\
   admins (fst (Setup this2 msp2 conf1))
   = map (with_owner this2) (admins (fst (Setup this1 msp1 conf1))) /\
   trustedCerts (fst (Setup this2 msp2 conf1))
   = map (with_owner this2) (trustedCerts (fst (Setup this1 msp1 conf1))) /\
   (this1 = this2 ->
    admins (fst (Setup this2 msp2 conf1))
    = admins (fst (Setup this1 msp1 conf1)) /\
    trustedCerts (fst (Setup this2 msp2 conf1))
    = trustedCerts (fst (Setup this1 msp1 conf1)))).
Proof.
  intros Hb.
  destruct conf1 as [c|]; [|split; [reflexivity|discriminate]].
  destruct (json_Unmarshal (Config c)) as [conf|e] eqn:Hj;
    [|unfold Setup; rewrite Hj; split; [reflexivity|discriminate]].
  assert (Hn : name (set_name msp1 (Name conf)) = name (set_name msp2 (Name conf)))
    by reflexivity.
  assert (Hc : bccsp (set_name msp1 (Name conf)) = bccsp (set_name msp2 (Name conf)))
    by exact Hb.
  destruct (Setup_cases this1 msp1 c conf Hj)
    as [(pre & bad & post & ids & e & Ha & Hpre & Hbad & ->)
       |[(aids & pre & bad & post & ids & e & Ha & Hr & Hpre & Hbad & ->)
        |(aids & rids & Ha & Hr & ->)]].
  - assert (Hbad' : getIdentityFromConf this2 (set_name msp2 (Name conf)) bad
                    = Err e)
      by (rewrite (getIdentityFromConf_owner this1 this2 _ _ bad Hn Hc), Hbad;
          reflexivity).
    rewrite (Setup_refused_admin this2 msp2 c conf pre post bad _ e Hj Ha
               (built_owner this1 this2 _ _ _ _ Hn Hc Hpre) Hbad').
    split; [reflexivity|discriminate].
  - assert (Hbad' : getIdentityFromConf this2 (set_name msp2 (Name conf)) bad
                    = Err e)
      by (rewrite (getIdentityFromConf_owner this1 this2 _ _ bad Hn Hc), Hbad;
          reflexivity).
    rewrite (Setup_refused_root this2 msp2 c conf _ pre post bad _ e Hj
               (built_owner this1 this2 _ _ _ _ Hn Hc Ha) Hr
               (built_owner this1 this2 _ _ _ _ Hn Hc Hpre) Hbad').
    split; [reflexivity|discriminate].
  - rewrite (Setup_lists_built this2 msp2 c conf _ _ Hj
               (built_owner this1 this2 _ _ _ _ Hn Hc Ha)
               (built_owner this1 this2 _ _ _ _ Hn Hc Hr)).
    assert (Hsame : this1 = this2 ->
                    map (with_owner this2) aids = aids /\
                    map (with_owner this2) rids = rids).
    { intros <-. split; eapply built_own; eassumption. }
    destruct (SigningIdentity_ conf) as [sidInfo|].
    + destruct (getSigningIdentityFromConf_owner this1 this2 _ _
                  (Some sidInfo) Hn Hc) as [Hok Hres].
      specialize (Hres _ eq_refl).
      destruct (getSigningIdentityFromConf this1 _ (Some sidInfo))
        as [sid1|e1|w1];
        destruct (getSigningIdentityFromConf this2 _ (Some sidInfo))
          as [sid2|e2|w2]; try discriminate Hok; try discriminate Hres.
      * split; [reflexivity|]. intros _. cbn [fst name admins trustedCerts
          set_signer stopped]. repeat split; apply Hsame; assumption.
      * injection Hres as ->. split; [reflexivity|discriminate].
      * injection Hres as ->. split; [reflexivity|discriminate].
    + split; [reflexivity|]. intros _.
      cbn [fst name admins trustedCerts stopped].
      repeat split; apply Hsame; assumption.
Qed.

End SetupState.

Lemma Setup_keeps_signer_witness :
  GetDefaultSigningIdentity
    (fst (Setup (L := Toy.reading Toy.conf_bad_admin) Toy.here Toy.configured
            (Some Toy.message)))
  = GetDefaultSigningIdentity Toy.configured.
Proof.
  apply (proj2 (Setup_keeps_signer (L := Toy.reading Toy.conf_bad_admin)
                  Toy.here Toy.configured (Some Toy.message))).
  reflexivity.
Defined.

Lemma Setup_without_signer_keeps_default_witness :
  GetDefaultSigningIdentity
    (fst (Setup (L := Toy.reading Toy.conf_no_signer) Toy.here Toy.configured
            (Some Toy.message)))
  = Ok (SidCert {| pub := Toy.idOf "org1" "DEFAULT" "0leaf";
                   sid_signer := Toy.B "key" |}).
Proof.
  rewrite (Setup_without_signer_keeps_default
             (L := Toy.reading Toy.conf_no_signer) Toy.here Toy.configured
             (fst (Setup (L := Toy.reading Toy.conf_no_signer) Toy.here
                     Toy.configured (Some Toy.message)))
             Toy.message Toy.conf_no_signer eq_refl eq_refl eq_refl).
  reflexivity.
Defined.

Lemma Setup_name_and_slots_witness :
  GetIdentifier
    (fst (Setup (L := Toy.reading Toy.conf_bad_admin) Toy.here Toy.fresh
            (Some Toy.message))) = Ok "org1" /\
  length (admins
            (fst (Setup (L := Toy.reading Toy.conf_bad_admin) Toy.here
                    Toy.fresh (Some Toy.message)))) = 2 /\
  fst (Setup (L := Toy.reading Toy.conf_org1) Toy.here Toy.configured None)
  = Toy.configured.
Proof.
  split; [|split].
  - apply (proj1 (Setup_name_and_slots (L := Toy.reading Toy.conf_bad_admin)
                    Toy.here Toy.fresh (Some Toy.message))
             Toy.message Toy.conf_bad_admin eq_refl eq_refl).
  - apply (proj1 (Setup_name_and_slots (L := Toy.reading Toy.conf_bad_admin)
                    Toy.here Toy.fresh (Some Toy.message))
             Toy.message Toy.conf_bad_admin eq_refl eq_refl).
  - apply (proj2 (Setup_name_and_slots (L := Toy.reading Toy.conf_org1)
                    Toy.here Toy.configured None)).
    left. reflexivity.
Defined.

Lemma Setup_overwrites_witness :
  snd (Setup (L := Toy.reading Toy.conf_org1) 2%positive Toy.fresh
         (Some Toy.message))
  = snd (Setup (L := Toy.reading Toy.conf_org1) Toy.here Toy.after_bad_root
           (Some Toy.message)) /\
  admins (fst (Setup (L := Toy.reading Toy.conf_org1) 2%positive Toy.fresh
                 (Some Toy.message)))
  = map (with_owner 2%positive)
      (admins (fst (Setup (L := Toy.reading Toy.conf_org1) Toy.here
                      Toy.after_bad_root (Some Toy.message)))) /\
  admins (fst (Setup (L := Toy.reading Toy.conf_org1) Toy.here Toy.fresh
                 (Some Toy.message)))
  = admins (fst (Setup (L := Toy.reading Toy.conf_org1) Toy.here
                   Toy.after_bad_root (Some Toy.message))).
Proof.
  pose proof (Setup_overwrites (L := Toy.reading Toy.conf_org1) Toy.here
                2%positive Toy.after_bad_root Toy.fresh (Some Toy.message)
                eq_refl) as [Hr Hs].
  pose proof (Setup_overwrites (L := Toy.reading Toy.conf_org1) Toy.here
                Toy.here Toy.after_bad_root Toy.fresh (Some Toy.message)
                eq_refl) as [_ Hs'].
  split; [symmetry; exact Hr|]. split.
  - exact (proj1 (proj2 (Hs eq_refl))).
  - exact (proj1 (proj2 (proj2 (proj2 (Hs' eq_refl))) eq_refl)).
Defined.

(** ** Setup and the validator *)

Section SetupValidate.
Context `{L : Library}.
Variable this : ptr.

(** [parsed b c]: the configured entry [b] holds a PEM block whose bytes
    parse to the certificate [c]. *)
Definition parsed (b : option bytes) (c : Certificate) : Prop :=
  exists data bl,
    b = Some data /\ fst (pem_Decode data) = Some bl /\
    x509_ParseCertificate (Bytes bl) = inl c.

(** [identity_of msp n b id]: [id] is the identity of the certificate of
    entry [b], with the key that the crypto provider of [msp] imports
    from it, under the provider name [n]. *)
Definition identity_of (msp : bccspmsp) (n : string) (b : option bytes)
    (id : Identity) : Prop :=
  exists c k,
    parsed b c /\
    KeyImport (bccsp msp) (RawCertificate c) (X509PublicKeyImportOpts true)
    = inl k /\
    id = IdCert {| ident := {| Mspid := n; Id := "IDENTITY" |};
                   cert := c; pk := k; owner := this |}.

Lemma built_identity_of (msp : bccspmsp) (n : string) (b : option bytes)
    (id : Identity) :
  built this (set_name msp n) b id -> identity_of msp n b id.
Proof.
  intros H. apply getIdentityFromConf_Ok in H.
  destruct H as (data & bl & c & k & -> & Hp & Hc & Hk & ->).
  exists c, k. split; [exists data, bl; auto|]. split; [exact Hk|reflexivity].
Qed.

Lemma built_certificates (m0 : bccspmsp) (l : list (option bytes))
    (ids : list Identity) :
  Forall2 (built this m0) l ids -> Forall2 parsed l (certificates ids).
Proof.
  induction 1 as [|b id l ids Hb _ IH]; [constructor|].
  apply getIdentityFromConf_Ok in Hb.
  destruct Hb as (data & bl & c & k & -> & Hp & Hc & _ & ->).
  cbn [certificates cert]. constructor; [|exact IH].
  exists data, bl. auto.
Qed.

(** After a successful [Setup] the admins and the trusted roots mirror the
    configuration: entry by entry and in its order, each is the identity
    of the configured certificate, under the name of the configuration. *)
Theorem Setup_Ok_mirrors_configuration (msp msp' : bccspmsp) (c : MSPConfig)
    (conf : FabricMSPConfig) :
  json_Unmarshal (Config c) = inl conf ->
  Setup this msp (Some c) = (msp', Ok tt) ->
  name msp' = Name conf /\
  Forall2 (identity_of msp (Name conf)) (Admins conf) (admins msp') /\
  Forall2 (identity_of msp (Name conf)) (RootCerts conf) (trustedCerts msp').
Proof.
  intros Hj H. apply Setup_Ok_inv in H.
  destruct H as (c' & conf' & aids & rids & [= <-] & Hj' & Ha & Hr & H).
  rewrite Hj in Hj'. injection Hj' as <-.
  assert (Ha' : Forall2 (identity_of msp (Name conf)) (Admins conf) aids)
    by (eapply Forall2_impl; [exact Ha|apply built_identity_of]).
  assert (Hr' : Forall2 (identity_of msp (Name conf)) (RootCerts conf) rids)
    by (eapply Forall2_impl; [exact Hr|apply built_identity_of]).
  destruct (SigningIdentity_ conf).
  - destruct H as (sid & _ & ->). auto.
  - subst msp'. auto.
Qed.

(** After a successful [Setup], [Validate] of a certificate-backed
    identity does not panic: it is the path validation against the pool
    of the certificates parsed from the configured roots, added in the
    order of the configuration, at the given time. *)
Theorem Validate_after_Setup_Ok (msp msp' : bccspmsp) (c : MSPConfig)
    (conf : FabricMSPConfig) :
  json_Unmarshal (Config c) = inl conf ->
  Setup this msp (Some c) = (msp', Ok tt) ->
  exists roots,
    Forall2 parsed (RootCerts conf) roots /\
    forall (now : Time) (i : identity),
      Validate msp' now (IdCert i)
      = match Verify (cert i)
                {| DNSName := ""; Intermediates := None;
                   Roots := Some (fold_left AddCert roots x509_NewCertPool);
                   CurrentTime := now; KeyUsages := [] |} with
        | inl _ => Ok tt
        | inr err =>
            Err ("The supplied identity is not valid, Verify() returned "
                 +:+ err)
        end.
Proof.
  intros Hj H.
  destruct (Setup_Ok_stores this msp msp' _ H) as [Hcert _].
  apply Setup_Ok_inv in H.
  destruct H as (c' & conf' & aids & rids & [= <-] & Hj' & _ & Hr & H).
  rewrite Hj in Hj'. injection Hj' as <-.
  assert (Ht : trustedCerts msp' = rids).
  { destruct (SigningIdentity_ conf).
    - destruct H as (sid & _ & ->). reflexivity.
    - subst msp'. reflexivity. }
  exists (certificates rids). split; [exact (built_certificates _ _ _ Hr)|].
  intros now i. rewrite (Validate_cert msp' now i Hcert).
  unfold path_validation. rewrite Ht. reflexivity.
Qed.

Lemma all_or_some_not_cert (l : list Identity) :
  Forall (fun v => is_cert v = true) l \/
  Exists (fun v => is_cert v = false) l.
Proof.
  induction l as [|v l [IH|IH]].
  - left. constructor.
  - destruct (is_cert v) eqn:Hv.
    + left. constructor; assumption.
    + right. left. exact Hv.
  - right. right. exact IH.
Qed.

(** [Validate] panics exactly when the identity is certificate-backed
    and some entry of the trust store is not. *)
Theorem Validate_Panic_iff (msp : bccspmsp) (now : Time) (id : Identity)
    (why : string) :
  Validate msp now id = Panic why <->
  is_cert id = true /\
  Exists (fun v => is_cert v = false) (trustedCerts msp) /\
  why = interface_conversion.
Proof.
  split.
  - destruct id as [|i|tag]; try discriminate. intros H.
    destruct (all_or_some_not_cert (trustedCerts msp)) as [Hall|Hex].
    + rewrite (Validate_cert msp now i Hall) in H.
      destruct (Verify _ _); discriminate H.
    + unfold Validate in H. rewrite (Validate_roots_Panic _ _ Hex) in H.
      injection H as <-. auto.
  - intros (Hid & Hex & ->). destruct id as [|i|tag]; try discriminate Hid.
    unfold Validate. rewrite (Validate_roots_Panic _ _ Hex). reflexivity.
Qed.

(** A [Setup] that stops at a refused root certificate leaves a trust
    store on which [Validate] of every certificate-backed identity
    panics, also when the roots before the refused one were built. *)
Theorem Validate_after_refused_root (msp : bccspmsp) (c : MSPConfig)
    (conf : FabricMSPConfig) (aids : list Identity)
    (pre post : list (option bytes)) (bad : option bytes)
    (ids : list Identity) (e : error) (now : Time) (i : identity) :
  json_Unmarshal (Config c) = inl conf ->
  Forall2 (built this (set_name msp (Name conf))) (Admins conf) aids ->
  RootCerts conf = pre ++ bad :: post ->
  Forall2 (built this (set_name msp (Name conf))) pre ids ->
  getIdentityFromConf this (set_name msp (Name conf)) bad = Err e ->
  Validate (fst (Setup this msp (Some c))) now (IdCert i)
  = Panic interface_conversion.
Proof.
  intros Hj Ha Hr Hpre Hbad.
  rewrite (Setup_refused_root this msp c conf aids pre post bad ids e
             Hj Ha Hr Hpre Hbad).
  unfold Validate. cbn [fst trustedCerts stopped].
  rewrite Validate_roots_Panic; [reflexivity|].
  apply Exists_app. right. left. reflexivity.
Qed.

(** A [Setup] that stops before the roots (a nil or undecodable
    configuration, a refused admin certificate) leaves the trust store as
    it was: [Validate] answers as before the call. *)
Theorem Validate_after_refused_admin (msp : bccspmsp)
    (conf1 : option MSPConfig) (now : Time) (id : Identity) :
  (conf1 = None \/
   (exists c e, conf1 = Some c /\ json_Unmarshal (Config c) = inr e) \/
   (exists c conf,
      conf1 = Some c /\ json_Unmarshal (Config c) = inl conf /\
      Exists (fun b => is_Ok (getIdentityFromConf this
                                (set_name msp (Name conf)) b) = false)
        (Admins conf))) ->
  Validate (fst (Setup this msp conf1)) now id = Validate msp now id.
Proof.
  intros [->|[(c & e & -> & Hj)|(c & conf & -> & Hj & Hex)]].
  - reflexivity.
  - unfold Setup. rewrite Hj. reflexivity.
  - destruct (Setup_cases this msp c conf Hj)
      as [(pre & bad & post & ids & e & _ & _ & _ & ->)
         |[(aids & pre & bad & post & ids & e & Ha & _)
          |(aids & rids & Ha & _)]].
    + reflexivity.
    + exfalso. apply built_is_Ok in Ha. rewrite Forall_forall in Ha.
      apply Exists_exists in Hex. destruct Hex as (b & Hin & Hb).
      specialize (Ha _ Hin). congruence.
    + exfalso. apply built_is_Ok in Ha. rewrite Forall_forall in Ha.
      apply Exists_exists in Hex. destruct Hex as (b & Hin & Hb).
      specialize (Ha _ Hin). congruence.
Qed.

End SetupValidate.

(** More configurations for the small instance of the libraries. *)
Module ToyMore.

(** The second of two roots is malformed. *)
Definition conf_second_root_bad : FabricMSPConfig :=
  {| Name := "org1"; Admins := [Some Toy.adminPEM];
     RootCerts := [Some Toy.rootPEM; Some Toy.garbage];
     SigningIdentity_ := None |}.

End ToyMore.

Lemma Setup_Ok_mirrors_configuration_witness :
  name Toy.configured = "org1" /\
  Forall2 (identity_of (L := Toy.reading Toy.conf_org1) Toy.here Toy.fresh "org1")
    [Some Toy.adminPEM] (admins Toy.configured) /\
  Forall2 (identity_of (L := Toy.reading Toy.conf_org1) Toy.here Toy.fresh "org1")
    [Some Toy.rootPEM] (trustedCerts Toy.configured).
Proof.
  exact (Setup_Ok_mirrors_configuration (L := Toy.reading Toy.conf_org1)
           Toy.here Toy.fresh Toy.configured Toy.message Toy.conf_org1
           eq_refl eq_refl).
Defined.

Lemma Validate_after_Setup_Ok_witness :
  exists roots,
    Forall2 (parsed (L := Toy.reading Toy.conf_org1)) [Some Toy.rootPEM] roots /\
    Validate (L := Toy.reading Toy.conf_org1) Toy.configured Toy.noon
      (IdCert (Toy.idOf "org1" "DEFAULT" "0root"))
    = match Verify (Library := Toy.reading Toy.conf_org1) (Toy.B "0root")
              {| DNSName := ""; Intermediates := None;
                 Roots := Some (fold_left
                                  (AddCert (Library := Toy.reading Toy.conf_org1))
                                  roots
                                  (x509_NewCertPool
                                     (Library := Toy.reading Toy.conf_org1)));
                 CurrentTime := Toy.noon; KeyUsages := [] |} with
      | inl _ => Ok tt
      | inr err =>
          Err ("The supplied identity is not valid, Verify() returned " +:+ err)
      end.
Proof.
  destruct (Validate_after_Setup_Ok (L := Toy.reading Toy.conf_org1)
              Toy.here Toy.fresh Toy.configured Toy.message Toy.conf_org1
              eq_refl eq_refl) as (roots & Hroots & Hv).
  exists roots. split; [exact Hroots|].
  exact (Hv Toy.noon (Toy.idOf "org1" "DEFAULT" "0root")).
Defined.

Lemma Validate_Panic_iff_witness :
  Validate (L := Toy.reading Toy.conf_org1)
    (set_trustedCerts Toy.configured
       [IdCert (Toy.idOf "org1" "IDENTITY" "0root"); IdOther 3])
    Toy.noon (IdCert (Toy.idOf "org1" "DEFAULT" "0leaf"))
  = Panic interface_conversion.
Proof.
  apply (proj2 (Validate_Panic_iff (L := Toy.reading Toy.conf_org1) _ _ _ _)).
  split; [reflexivity|]. split; [|reflexivity].
  right. left. reflexivity.
Defined.

Lemma Validate_after_refused_root_witness :
  trustedCerts
    (fst (Setup (L := Toy.reading ToyMore.conf_second_root_bad) Toy.here
            Toy.fresh (Some Toy.message)))
  = [IdCert (Toy.idOf "org1" "IDENTITY" "0root"); IdNil] /\
  Validate (L := Toy.reading ToyMore.conf_second_root_bad)
    (fst (Setup (L := Toy.reading ToyMore.conf_second_root_bad) Toy.here
            Toy.fresh (Some Toy.message)))
    Toy.noon (IdCert (Toy.idOf "org1" "DEFAULT" "0root"))
  = Panic interface_conversion.
Proof.
  split; [reflexivity|].
  apply (Validate_after_refused_root
           (L := Toy.reading ToyMore.conf_second_root_bad) Toy.here Toy.fresh
           Toy.message ToyMore.conf_second_root_bad
           [IdCert (Toy.idOf "org1" "IDENTITY" "0admin")]
           [Some Toy.rootPEM] [] (Some Toy.garbage)
           [IdCert (Toy.idOf "org1" "IDENTITY" "0root")] Toy.not_pem).
  - reflexivity.
  - repeat constructor.
  - reflexivity.
  - repeat constructor.
  - reflexivity.
Defined.

Lemma Validate_after_refused_admin_witness :
  Validate (L := Toy.reading Toy.conf_bad_admin)
    (fst (Setup (L := Toy.reading Toy.conf_bad_admin) Toy.here Toy.configured
            (Some Toy.message)))
    Toy.noon (IdCert (Toy.idOf "org1" "DEFAULT" "0root"))
  = Validate (L := Toy.reading Toy.conf_bad_admin) Toy.configured Toy.noon
      (IdCert (Toy.idOf "org1" "DEFAULT" "0root")).
Proof.
  apply (Validate_after_refused_admin (L := Toy.reading Toy.conf_bad_admin)
           Toy.here Toy.configured (Some Toy.message)).
  right; right. exists Toy.message, Toy.conf_bad_admin.
  split; [reflexivity|]. split; [reflexivity|].
  right. left. reflexivity.
Defined.

(** ** The factories and the codec *)

Section FactoriesCodec.
Context `{L : Library}.
Variable this : ptr.

(** The factory and the codec read the bytes of the first PEM block and
    nothing else of the input: neither the type of the block nor what
    follows it is checked. Inputs whose first blocks hold the same bytes
    give the same result, in a configuration and in an envelope. *)
Theorem first_PEM_block_bytes_only (msp : bccspmsp) (d1 d2 : bytes)
    (b1 b2 : pem_Block) :
  fst (pem_Decode d1) = Some b1 ->
  fst (pem_Decode d2) = Some b2 ->
  Bytes b1 = Bytes b2 ->
  getIdentityFromConf this msp (Some d1) = getIdentityFromConf this msp (Some d2) /\
  forall e1 e2 r1 r2 p1 p2,
    asn1_Unmarshal e1 = inl (r1, {| sMspid := p1; IdBytes := d1 |}) ->
    asn1_Unmarshal e2 = inl (r2, {| sMspid := p2; IdBytes := d2 |}) ->
    DeserializeIdentity this msp e1 = DeserializeIdentity this msp e2.
Proof.
  intros H1 H2 Hb. split.
  - unfold getIdentityFromConf. rewrite H1, H2, Hb. reflexivity.
  - intros e1 e2 r1 r2 p1 p2 Hu1 Hu2.
    rewrite (DeserializeIdentity_envelope this msp e1 r1 _ Hu1).
    rewrite (DeserializeIdentity_envelope this msp e2 r2 _ Hu2).
    cbn [IdBytes]. rewrite H1, H2, Hb. reflexivity.
Qed.

(** [DeserializeIdentity] accepts exactly the envelopes whose identity
    bytes the factory accepts, and returns the identity that the factory
    builds from them, with the identifier "DEFAULT" in place of
    "IDENTITY". *)
Theorem DeserializeIdentity_as_factory (msp : bccspmsp) (data rest : bytes)
    (sId : SerializedIdentity) :
  asn1_Unmarshal data = inl (rest, sId) ->
  is_Ok (DeserializeIdentity this msp data)
  = is_Ok (getIdentityFromConf this msp (Some (IdBytes sId))) /\
  forall i,
    getIdentityFromConf this msp (Some (IdBytes sId)) = Ok (IdCert i) ->
    ident i = {| Mspid := name msp; Id := "IDENTITY" |} /\
    DeserializeIdentity this msp data
    = Ok (IdCert {| ident := {| Mspid := name msp; Id := "DEFAULT" |};
                    cert := cert i; pk := pk i; owner := owner i |}).
Proof.
  intros Hu. rewrite (DeserializeIdentity_envelope this msp data rest sId Hu).
  unfold getIdentityFromConf, newIdentity.
  destruct (fst (pem_Decode (IdBytes sId))) as [bl|];
    [|split; [reflexivity|discriminate]].
  destruct (x509_ParseCertificate (Bytes bl)) as [c|e];
    [|split; [reflexivity|discriminate]].
  destruct (KeyImport _ _ _) as [k|e]; [|split; [reflexivity|discriminate]].
  split; [reflexivity|]. intros i [= <-]. split; reflexivity.
Qed.

(** The validator looks at the certificate of an identity only. The
    identity that one provider builds from PEM bytes and the identity
    that another provider deserializes from an envelope of the same
    bytes get the same verdict from every provider. *)
Theorem Validate_deserialized_as_built (this1 this2 : ptr)
    (m1 m2 : bccspmsp) (P data rest : bytes) (sId : SerializedIdentity)
    (id1 id2 : Identity) :
  getIdentityFromConf this1 m1 (Some P) = Ok id1 ->
  asn1_Unmarshal data = inl (rest, sId) ->
  IdBytes sId = P ->
  DeserializeIdentity this2 m2 data = Ok id2 ->
  forall (m : bccspmsp) (now : Time), Validate m now id1 = Validate m now id2.
Proof.
  intros H1 Hu <- H2 m now.
  apply getIdentityFromConf_Ok in H1.
  destruct H1 as (P' & bl & c & k & [= <-] & Hp & Hc & _ & ->).
  rewrite (DeserializeIdentity_envelope this2 m2 data rest sId Hu), Hp, Hc in H2.
  destruct (KeyImport _ _ _); [|discriminate H2].
  injection H2 as <-. reflexivity.
Qed.

(** The signing factory does not check the key against the certificate.
    The public part of a signing identity is the identity of the public
    certificate, and its signer comes from the key material alone: the
    key of one signing identity makes a signing identity with any
    certificate that the factory builds. *)
Theorem signing_key_not_checked_against_certificate (msp : bccspmsp)
    (s1 : SigningIdentityInfo) (a : signingidentity)
    (p2 : option bytes) (i2 : identity) :
  getSigningIdentityFromConf this msp (Some s1) = Ok (SidCert a) ->
  getIdentityFromConf this msp p2 = Ok (IdCert i2) ->
  (exists i1,
     getIdentityFromConf this msp (PublicSigner s1) = Ok (IdCert i1) /\
     cert (pub a) = cert i1 /\ pk (pub a) = pk i1) /\
  getSigningIdentityFromConf this msp
    (Some {| PublicSigner := p2; PrivateSigner := PrivateSigner s1 |})
  = Ok (SidCert {| pub := {| ident := {| Mspid := name msp; Id := "DEFAULT" |};
                             cert := cert i2; pk := pk i2; owner := this |};
                   sid_signer := sid_signer a |}).
Proof.
  unfold getSigningIdentityFromConf, newSigningIdentity. cbn [PublicSigner PrivateSigner].
  intros H1 H2. rewrite H2.
  destruct (getIdentityFromConf this msp (PublicSigner s1))
    as [idPub|e|w]; try discriminate H1.
  destruct (fst (pem_Decode _)) as [pemKey|]; [|discriminate H1].
  destruct (KeyImport _ _ _) as [key|e]; [|discriminate H1].
  destruct (CryptoSigner_Init _ _) as [peerSigner|e]; [|discriminate H1].
  destruct idPub as [|i1|]; try discriminate H1.
  injection H1 as <-. split; [|reflexivity].
  exists i1. auto.
Qed.

(** [NewBccspMsp] succeeds exactly when the factory of crypto providers
    returns an instance; the provider it returns has that instance, an
    empty name and no signing identity, and validates against the empty
    pool of roots. *)
Theorem NewBccspMsp_provider :
  (is_Ok NewBccspMsp = true <-> exists b, factory_GetDefault = inl (Some b)) /\
  forall msp,
    NewBccspMsp = Ok msp ->
    factory_GetDefault = inl (Some (bccsp msp)) /\
    GetIdentifier msp = Ok "" /\
    GetDefaultSigningIdentity msp = Err no_default_signer /\
    forall (now : Time) (i : identity),
      Validate msp now (IdCert i)
      = match Verify (cert i)
                {| DNSName := ""; Intermediates := None;
                   Roots := Some x509_NewCertPool;
                   CurrentTime := now; KeyUsages := [] |} with
        | inl _ => Ok tt
        | inr err =>
            Err ("The supplied identity is not valid, Verify() returned "
                 +:+ err)
        end.
Proof.
  unfold NewBccspMsp. destruct factory_GetDefault as [[b|]|e].
  - split; [split; [eauto|reflexivity]|].
    intros msp [= <-]. repeat split.
  - split; [split; [discriminate|intros [b Hb]; discriminate Hb]|discriminate].
  - split; [split; [discriminate|intros [b Hb]; discriminate Hb]|discriminate].
Qed.

End FactoriesCodec.

(** A PEM decoder for the small instance that knows two block types, the
    armour [PEM:] of a certificate and the armour [KEY:] of a key. *)
Module ToyPem.

#[local] Existing Instance Toy.types.

Definition Decode (data : bytes) : option pem_Block * bytes :=
  match Toy.strip_prefix (Toy.B "PEM:") data with
  | Some payload => (Some {| Type_ := "CERTIFICATE"; Bytes := payload |}, [])
  | None =>
      match Toy.strip_prefix (Toy.B "KEY:") data with
      | Some payload =>
          (Some {| Type_ := "EC PRIVATE KEY"; Bytes := payload |}, [])
      | None => (None, data)
      end
  end.

Definition lib : Library := {|
  pem_Decode := Decode;
  pem_EncodeToMemory := Toy.EncodeToMemory;
  x509_ParseCertificate := Toy.ParseCertificate;
  x509_NewCertPool := [];
  AddCert := fun pool c => pool ++ [c];
  Verify := Toy.verify;
  json_Unmarshal := fun _ => inl Toy.conf_org1;
  asn1_Unmarshal := Toy.Unmarshal;
  asn1_Marshal := Toy.Marshal;
  CryptoSigner_Init := fun _ key => inl key;
  factory_GetDefault := inl (Some Toy.csp)
|}.

(** A second provider, at another address, and an identity it owns. *)
Definition there : ptr := 2%positive.

Definition idAt (n : string) (i : string) (c : string) : identity :=
  {| ident := {| Mspid := n; Id := i |}; cert := Toy.B c; pk := Toy.B c;
     owner := there |}.

End ToyPem.

Lemma first_PEM_block_bytes_only_witness :
  getIdentityFromConf (L := ToyPem.lib) Toy.here Toy.fresh
    (Some (Toy.B "KEY:0leaf"))
  = Ok (IdCert (Toy.idOf "" "IDENTITY" "0leaf")) /\
  DeserializeIdentity (L := ToyPem.lib) Toy.here Toy.fresh
    (Toy.B (String "004" "org1KEY:0leaf"))
  = DeserializeIdentity (L := ToyPem.lib) Toy.here Toy.fresh
      (Toy.B (String "004" "org1PEM:0leaf")).
Proof.
  pose proof (first_PEM_block_bytes_only (L := ToyPem.lib) Toy.here Toy.fresh
                (Toy.B "KEY:0leaf") (Toy.B "PEM:0leaf")
                {| Type_ := "EC PRIVATE KEY"; Bytes := Toy.B "0leaf" |}
                {| Type_ := "CERTIFICATE"; Bytes := Toy.B "0leaf" |}
                eq_refl eq_refl eq_refl) as [H1 H2].
  split.
  - rewrite H1. reflexivity.
  - exact (H2 (Toy.B (String "004" "org1KEY:0leaf"))
              (Toy.B (String "004" "org1PEM:0leaf")) [] [] "org1" "org1"
              eq_refl eq_refl).
Defined.

Lemma DeserializeIdentity_as_factory_witness :
  DeserializeIdentity (L := Toy.reading Toy.conf_org1) Toy.here Toy.configured
    (Toy.B (String "005" "otherPEM:0leaf"))
  = Ok (IdCert (Toy.idOf "org1" "DEFAULT" "0leaf")) /\
  is_Ok (DeserializeIdentity (L := Toy.reading Toy.conf_org1) Toy.here
           Toy.configured (Toy.B (String "005" "otherPEM:nothing")))
  = false.
Proof.
  split.
  - apply (proj2 (DeserializeIdentity_as_factory
                    (L := Toy.reading Toy.conf_org1) Toy.here Toy.configured
                    (Toy.B (String "005" "otherPEM:0leaf")) []
                    {| sMspid := "other"; IdBytes := Toy.leafPEM |} eq_refl)
             (Toy.idOf "org1" "IDENTITY" "0leaf") eq_refl).
  - rewrite (proj1 (DeserializeIdentity_as_factory
                      (L := Toy.reading Toy.conf_org1) Toy.here Toy.configured
                      (Toy.B (String "005" "otherPEM:nothing")) []
                      {| sMspid := "other"; IdBytes := Toy.B "PEM:nothing" |}
                      eq_refl)).
    reflexivity.
Defined.

Lemma Validate_deserialized_as_built_witness :
  Validate (L := Toy.reading Toy.conf_org1) Toy.configured Toy.noon
    (IdCert (Toy.idOf "" "IDENTITY" "0root"))
  = Validate (L := Toy.reading Toy.conf_org1) Toy.configured Toy.noon
      (IdCert (ToyPem.idAt "org1" "DEFAULT" "0root")).
Proof.
  apply (Validate_deserialized_as_built (L := Toy.reading Toy.conf_org1)
           Toy.here ToyPem.there Toy.fresh Toy.configured Toy.rootPEM
           (Toy.B (String "005" "otherPEM:0root")) []
           {| sMspid := "other"; IdBytes := Toy.rootPEM |});
    reflexivity.
Defined.

Lemma signing_key_not_checked_against_certificate_witness :
  getSigningIdentityFromConf (L := Toy.reading Toy.conf_org1) Toy.here
    Toy.configured
    (Some {| PublicSigner := Some Toy.adminPEM;
             PrivateSigner := Toy.keyOf Toy.keyPEM |})
  = Ok (SidCert {| pub := Toy.idOf "org1" "DEFAULT" "0admin";
                   sid_signer := Toy.B "key" |}).
Proof.
  apply (proj2 (signing_key_not_checked_against_certificate
                  (L := Toy.reading Toy.conf_org1) Toy.here Toy.configured
                  {| PublicSigner := Some Toy.leafPEM;
                     PrivateSigner := Toy.keyOf Toy.keyPEM |}
                  {| pub := Toy.idOf "org1" "DEFAULT" "0leaf";
                     sid_signer := Toy.B "key" |}
                  (Some Toy.adminPEM) (Toy.idOf "org1" "IDENTITY" "0admin")
                  eq_refl eq_refl)).
Defined.

Lemma NewBccspMsp_provider_witness :
  GetDefaultSigningIdentity Toy.fresh = Err no_default_signer /\
  GetIdentifier Toy.fresh = Ok "".
Proof.
  destruct (proj2 (NewBccspMsp_provider (L := Toy.reading Toy.conf_org1))
              Toy.fresh eq_refl) as (_ & Hn & Hs & _).
  split; [exact Hs|exact Hn].
Defined.

(** ** When Setup succeeds *)

Section SetupSucceeds.
Context `{L : Library}.
Variable this : ptr.

Lemma all_accepted_built (m0 : bccspmsp) (l : list (option bytes)) :
  Forall (fun b => is_Ok (getIdentityFromConf this m0 b) = true) l ->
  exists ids, Forall2 (built this m0) l ids.
Proof.
  intros H.
  destruct (first_refused this m0 l)
    as [Hids|(pre & bad & post & ids & e & -> & _ & Hbad)]; [exact Hids|].
  exfalso. apply Forall_app in H. destruct H as [_ H].
  apply Forall_cons in H. destruct H as [H _]. rewrite Hbad in H. discriminate H.
Qed.

(** [Setup] succeeds exactly when the configuration is given and decodes,
    the factory accepts every admin and every root certificate under the
    name of the configuration, and the signing factory accepts the signing
    identity when there is one. *)
Theorem Setup_Ok_iff (msp : bccspmsp) (conf1 : option MSPConfig) :
  snd (Setup this msp conf1) = Ok tt <->
  exists c conf,
    conf1 = Some c /\ json_Unmarshal (Config c) = inl conf /\
    Forall (fun b => is_Ok (getIdentityFromConf this
                              (set_name msp (Name conf)) b) = true)
      (Admins conf ++ RootCerts conf) /\
    match SigningIdentity_ conf with
    | None => True
    | Some sidInfo =>
        is_Ok (getSigningIdentityFromConf this (set_name msp (Name conf))
                 (Some sidInfo)) = true
    end.
Proof.
  split.
  - intros H.
    destruct (Setup this msp conf1) as [msp' r] eqn:E. cbn [snd] in H. subst r.
    apply Setup_Ok_inv in E.
    destruct E as (c & conf & aids & rids & -> & Hj & Ha & Hr & H).
    exists c, conf. split; [reflexivity|]. split; [exact Hj|]. split.
    + apply Forall_app. split; eapply built_is_Ok; eassumption.
    + destruct (SigningIdentity_ conf); [|exact I].
      destruct H as (sid & -> & _). reflexivity.
  - intros (c & conf & -> & Hj & Hall & Hs).
    apply Forall_app in Hall. destruct Hall as [Ha Hr].
    destruct (all_accepted_built _ _ Ha) as [aids Ha'].
    destruct (all_accepted_built _ _ Hr) as [rids Hr'].
    rewrite (Setup_lists_built this msp c conf aids rids Hj Ha' Hr').
    destruct (SigningIdentity_ conf); [|reflexivity].
    destruct (getSigningIdentityFromConf _ _ _); try discriminate Hs.
    reflexivity.
Qed.

End SetupSucceeds.

Lemma Setup_Ok_iff_witness :
  snd (Setup (L := Toy.reading Toy.conf_org1) Toy.here Toy.after_bad_root
         (Some Toy.message)) = Ok tt.
Proof.
  apply (proj2 (Setup_Ok_iff (L := Toy.reading Toy.conf_org1) Toy.here
                  Toy.after_bad_root (Some Toy.message))).
  exists Toy.message, Toy.conf_org1.
  split; [reflexivity|]. split; [reflexivity|]. split.
  - repeat constructor.
  - reflexivity.
Defined.
